(** * System Observation Boundary Map: the window-normalisation pipeline

    A shallow embedding of [src/app_boundary.py], lines 16-64: the schema
    checks, the timestamp parse, [dropna], [sort_values], the [_observed]
    flag, the summary counts and the [x0]/[x1]/[w] columns; and of what the
    script draws from that frame, lines 66-130: the bars of the single-track
    plot, the window-context track with its colours and legend, and the data
    preview.

    The data frame is taken as [pd.read_csv] delivers it.  The two pandas
    entry points whose behaviour is not written in the script are parameters
    of the pipeline: [pd.to_datetime] (a column of cells to a column of
    timestamps, [None] standing for [NaT]) and the indexer behind
    [DataFrame.sort_values] (NumPy's [argsort]).

    Timestamps are nanoseconds since the Unix epoch, as in [datetime64[ns]],
    held in [Z].  Seconds ([total_seconds()]) are exact rationals in lowest
    terms; the rounding to [float64] is left out: it is monotone and exact on
    whole seconds, so the order and the values stated below carry over. *)

From Stdlib Require Import Ascii QArith Qminmax.
From stdpp Require Import base decidable option numbers strings pretty gmap sorting list.

Local Open Scope string_scope.
Local Open Scope list_scope.
Local Open Scope Z_scope.

(** ** Cells and data frames *)

(** A cell of the frame read from the CSV: the scalar kinds [read_csv]
    infers, and [NaN] for an empty field. *)
Inductive Cell : Type :=
  | CBool (b : bool)
  | CInt (z : Z)
  | CFloat (q : Q)
  | CStr (s : string)
  | CNaN.

(** [Series.astype(bool)], cell by cell: Python truthiness.  [NaN] is a
    non-zero float, hence [True]. *)
Definition astype_bool (c : Cell) : bool :=
  match c with
  | CBool b => b
  | CInt z => negb (z =? 0)
  | CFloat q => negb (Qeq_bool q 0)
  | CStr s => negb (String.eqb s "")
  | CNaN => true
  end.

(** One CSV record, keyed by column label. *)
Abbreviation CsvRecord := (gmap string Cell).

Record DataFrame : Type := {
  columns : list string;
  records : list CsvRecord
}.

(** [r[col]]; a field the line did not provide reads as [NaN]. *)
Definition get (r : CsvRecord) (col : string) : Cell := default CNaN (r !! col).

(** [df[col]] as a column of cells. *)
Definition column (df : DataFrame) (col : string) : list Cell :=
  (λ r, get r col) <$> records df.

(** ** Settings *)

(** The options of the sidebar select box: [candidate_flags]. *)
Inductive FlagColumn : Type :=
  | is_observed_strict
  | is_observed
  | is_outside_observation.

Definition flag_name (f : FlagColumn) : string :=
  match f with
  | is_observed_strict => "is_observed_strict"
  | is_observed => "is_observed"
  | is_outside_observation => "is_outside_observation"
  end.

Definition candidate_flags : list string :=
  flag_name <$> [is_observed_strict; is_observed; is_outside_observation].

(** ** The script's control flow: [st.error] followed by [st.stop()] *)

Inductive Halt : Type :=
  | MissingRequired (missing : list string)
  | MissingFlag (flag_col : string).

Inductive Script (A : Type) : Type :=
  | Stopped (h : Halt)
  | Rendered (a : A).
Arguments Stopped {A} h.
Arguments Rendered {A} a.

Global Instance Script_ret : MRet Script := λ A a, Rendered a.
Global Instance Script_bind : MBind Script := λ A B k m,
  match m with
  | Stopped h => Stopped h
  | Rendered a => k a
  end.

(** ** Validate required columns (lines 26-34) *)

Definition required_cols : list string := ["window_start"; "window_end"].

(** [required_cols - set(df.columns)] *)
Definition missing (df : DataFrame) : list string :=
  filter (λ c, c ∉ columns df) required_cols.

Definition validate_required (df : DataFrame) : Script unit :=
  match missing df with
  | [] => Rendered ()
  | m => Stopped (MissingRequired m)
  end.

Definition validate_flag (df : DataFrame) (flag_col : FlagColumn) : Script unit :=
  if decide (flag_name flag_col ∈ columns df) then Rendered ()
  else Stopped (MissingFlag (flag_name flag_col)).

(** ** Rows after the parse *)

(** A row after lines 38-39: its index label, the record, and the two parsed
    columns. *)
Record Parsed : Type := {
  p_index : nat;
  p_raw : CsvRecord;
  p_start : option Z;
  p_end : option Z
}.

(** A row that survived [dropna]. *)
Record Row : Type := {
  index : nat;
  raw : CsvRecord;
  window_start : Z;
  window_end : Z
}.

(** [df.dropna(subset=["window_start", "window_end"])] *)
Definition dropna_row (p : Parsed) : option Row :=
  match p_start p, p_end p with
  | Some s, Some e =>
      Some {| index := p_index p; raw := p_raw p;
              window_start := s; window_end := e |}
  | _, _ => None
  end.

Definition dropna (ps : list Parsed) : list Row := omap dropna_row ps.

(** [values.take(indexer)]: the rows at the positions the indexer lists. *)
Definition take_at {A} (indexer : list nat) (l : list A) : list A :=
  omap (λ i, l !! i) indexer.

(** A row on which [to_datetime] gave [NaT] for either timestamp. *)
Definition unparseable (p : Parsed) : Prop := p_start p = None ∨ p_end p = None.

Global Instance unparseable_dec p : Decision (unparseable p).
Proof. unfold unparseable. apply _. Defined.

(** Rows compared by their sort key. *)
Definition start_le (a b : Row) : Prop := window_start a ≤ window_start b.

(** Rows that share a [window_start] come in the order of their index
    labels, that is, in the order of the input. *)
Definition ties_in_input_order (rows : list Row) : Prop :=
  ∀ i j a b, (i < j)%nat → rows !! i = Some a → rows !! j = Some b →
    window_start a = window_start b → (index a < index b)%nat.

(** ** Derived columns *)

(** Lines 45-48. *)
Definition observed_of (flag_col : FlagColumn) (r : Row) : bool :=
  if String.eqb (flag_name flag_col) "is_outside_observation"
  then negb (astype_bool (get (raw r) (flag_name flag_col)))
  else astype_bool (get (raw r) (flag_name flag_col)).

(** [Series.min()] of a timestamp column; [None] is [NaT], the minimum of an
    empty column. *)
Definition series_min (l : list Z) : option Z :=
  match l with
  | [] => None
  | t :: l => Some (foldr Z.min t l)
  end.

(** [Timedelta.total_seconds()] of a difference in nanoseconds. *)
Definition total_seconds (ns : Z) : Q := Qred (ns # 1000000000).

(** [Series.clip(lower=lo)] on one value. *)
Definition clip_lower (lo x : Q) : Q := if Qle_bool lo x then x else lo.

(** A row of the frame the plots read. *)
Record Window : Type := {
  row : Row;
  _observed : bool;
  x0 : Q;
  x1 : Q;
  w : Q
}.

(** Lines 62-64 for one row. *)
Definition timeline (t0 : Z) (flag_col : FlagColumn) (r : Row) : Window :=
  let a := total_seconds (window_start r - t0) in
  let b := total_seconds (window_end r - t0) in
  {| row := r; _observed := observed_of flag_col r;
     x0 := a; x1 := b; w := clip_lower 0 (Qred (b - a)) |}.

(** What the script hands to the sidebar and to the plots. *)
Record View : Type := {
  t0 : option Z;
  frame : list Window;
  total : Z;
  observed_n : Z;
  outside_n : Z
}.

(** ** The pipeline *)

Section Normalize.
(** [pd.to_datetime(col, errors="coerce", utc=True)]: position [i] of the
    result belongs to record [i]; [None] is [NaT]. *)
Variable to_datetime : list Cell → list (option Z).
(** The indexer of [sort_values]: [argsort] of the key column with the
    default [kind="quicksort"]. *)
Variable argsort : list Z → list nat.

(** Lines 38-39. *)
Definition parse (df : DataFrame) : list Parsed :=
  let starts := to_datetime (column df "window_start") in
  let ends := to_datetime (column df "window_end") in
  imap (λ i r, {| p_index := i; p_raw := r;
                  p_start := mjoin (starts !! i);
                  p_end := mjoin (ends !! i) |}) (records df).

(** [df.sort_values("window_start")] *)
Definition sort_values (rows : list Row) : list Row :=
  take_at (argsort (window_start <$> rows)) rows.

(** Lines 37-64 once both checks have passed. *)
Definition transform (df : DataFrame) (flag_col : FlagColumn) : View :=
  let rows := sort_values (dropna (parse df)) in
  let observed := observed_of flag_col <$> rows in
  let total := Z.of_nat (length rows) in
  let observed_n := Z.of_nat (length (filter (λ b, b = true) observed)) in
  let t0 := series_min (window_start <$> rows) in
  {| t0 := t0;
     frame := match t0 with
              | Some t => timeline t flag_col <$> rows
              | None => []
              end;
     total := total;
     observed_n := observed_n;
     outside_n := total - observed_n |}.

Definition normalize (df : DataFrame) (flag_col : FlagColumn) : Script View :=
  _ ← validate_required df;
  _ ← validate_flag df flag_col;
  mret (transform df flag_col).
End Normalize.

(** ** An instance of [pd.to_datetime]: ISO 8601, UTC, whole seconds

    The capture logs write [YYYY-MM-DDTHH:MM:SSZ].  This instance reads that
    form from a string cell and yields [NaT] for a string of any other shape
    and for a [NaN] cell; columns holding other kinds of cells are outside
    what it describes. *)
Module iso8601.
Definition digit (c : ascii) : option Z :=
  let n := Z.of_nat (nat_of_ascii c) in
  if (48 <=? n) && (n <=? 57) then Some (n - 48) else None.

Fixpoint number (acc : Z) (cs : list ascii) : option Z :=
  match cs with
  | [] => Some acc
  | c :: cs => d ← digit c; number (10 * acc + d) cs
  end.

(** The characters [from, from + len) read as a decimal number. *)
Definition field (cs : list ascii) (from len : nat) : option Z :=
  let part := take len (drop from cs) in
  if decide (length part = len) then number 0 part else None.

Definition sep (cs : list ascii) (at_ : nat) (c : ascii) : bool :=
  bool_decide (cs !! at_ = Some c).

Definition is_leap (y : Z) : bool :=
  ((y mod 4 =? 0) && negb (y mod 100 =? 0)) || (y mod 400 =? 0).

Definition days_in_month (y m : Z) : Z :=
  if m =? 2 then (if is_leap y then 29 else 28)
  else if (m =? 4) || (m =? 6) || (m =? 9) || (m =? 11) then 30
  else 31.

(** Days from 1970-01-01 to the given civil date (proleptic Gregorian). *)
Definition days_from_civil (y m d : Z) : Z :=
  let y := if m <=? 2 then y - 1 else y in
  let era := y / 400 in
  let yoe := y - era * 400 in
  let doy := (153 * (if 2 <? m then m - 3 else m + 9) + 2) / 5 + d - 1 in
  let doe := yoe * 365 + yoe / 4 - yoe / 100 + doy in
  era * 146097 + doe - 719468.

Definition parse (s : string) : option Z :=
  let cs := String.list_ascii_of_string s in
  if decide (length cs = 20%nat) then
    if sep cs 4 "-" && sep cs 7 "-" && sep cs 10 "T"
       && sep cs 13 ":" && sep cs 16 ":" && sep cs 19 "Z"
    then
      y ← field cs 0 4; m ← field cs 5 2; d ← field cs 8 2;
      hh ← field cs 11 2; mm ← field cs 14 2; ss ← field cs 17 2;
      if (1 <=? m) && (m <=? 12) && (1 <=? d) && (d <=? days_in_month y m)
         && (hh <? 24) && (mm <? 60) && (ss <? 60)
      then Some ((days_from_civil y m d * 86400
                  + hh * 3600 + mm * 60 + ss) * 1000000000)
      else None
    else None
  else None.

Definition to_datetime (col : list Cell) : list (option Z) :=
  (λ c, match c with CStr s => parse s | _ => None end) <$> col.
End iso8601.

(** ** Indexers *)

(** What NumPy documents of [argsort] for every [kind]: the result lists each
    position once, and the keys read through it ascend. *)
Class Argsort (argsort : list Z → list nat) : Prop := {
  argsort_positions ks : argsort ks ≡ₚ seq 0 (length ks);
  argsort_ascending ks : Sorted Z.le (take_at (argsort ks) ks)
}.

(** The key at a position, and positions compared by their keys. *)
Definition key_at (ks : list Z) (i : nat) : Z := default 0 (ks !! i).

Definition key_le (ks : list Z) (i j : nat) : Prop := key_at ks i ≤ key_at ks j.

Global Instance key_le_dec ks i j : Decision (key_le ks i j) := Z_le_dec _ _.

(** An indexer that meets the contract: merge sort of the positions by their
    keys. *)
Definition argsort_merge (ks : list Z) : list nat :=
  merge_sort (key_le ks) (seq 0 (length ks)).

(** [kind="quicksort"], the default: NumPy's [aquicksort_] for a
    [datetime64] key column (npysort/quicksort.cpp), an introsort over the
    array [tosort] of positions.  A range of more than [SMALL_QUICKSORT + 1]
    positions is partitioned around the median of three, smaller ranges are
    finished by insertion sort.  The fall-back to heap sort once the depth
    budget is spent is not described here: the model then answers [None]. *)
Module npysort.
Definition SMALL_QUICKSORT : nat := 16.

Section keys.
Variable v : list Z.

(** [v[tosort[p]]] *)
Definition val (tosort : list nat) (p : nat) : Z :=
  default 0 (i ← tosort !! p; v !! i).

(** [INTP_SWAP(tosort[p], tosort[q])] *)
Definition swap (p q : nat) (tosort : list nat) : list nat :=
  match tosort !! p, tosort !! q with
  | Some a, Some b => <[q:=a]> (<[p:=b]> tosort)
  | _, _ => tosort
  end.

(** [do { ++pi; } while (less(v[*pi], vp));] *)
Fixpoint scan_up (fuel : nat) (tosort : list nat) (vp : Z) (pi : nat) : nat :=
  match fuel with
  | O => pi
  | S fuel =>
      let pi := S pi in
      if val tosort pi <? vp then scan_up fuel tosort vp pi else pi
  end.

(** [do { --pj; } while (less(vp, v[*pj]));] *)
Fixpoint scan_down (fuel : nat) (tosort : list nat) (vp : Z) (pj : nat) : nat :=
  match fuel with
  | O => pj
  | S fuel =>
      let pj := pred pj in
      if vp <? val tosort pj then scan_down fuel tosort vp pj else pj
  end.

(** The [for (;;)] loop of the partition; returns the array and [pi]. *)
Fixpoint exchange (fuel : nat) (tosort : list nat) (vp : Z) (pi pj : nat)
    : list nat * nat :=
  match fuel with
  | O => (tosort, pi)
  | S fuel =>
      let pi := scan_up (length tosort) tosort vp pi in
      let pj := scan_down (length tosort) tosort vp pj in
      if (pj <=? pi)%nat then (tosort, pi)
      else exchange fuel (swap pi pj tosort) vp pi pj
  end.

(** One pass of the [while ((pr - pl) > SMALL_QUICKSORT)] body, up to the
    final swap that puts the pivot at [pi]. *)
Definition partition (tosort : list nat) (pl pr : nat) : list nat * nat :=
  let pm := (pl + (pr - pl) / 2)%nat in
  let tosort :=
    if val tosort pm <? val tosort pl then swap pm pl tosort else tosort in
  let tosort :=
    if val tosort pr <? val tosort pm then swap pr pm tosort else tosort in
  let tosort :=
    if val tosort pm <? val tosort pl then swap pm pl tosort else tosort in
  let vp := val tosort pm in
  let pj := (pr - 1)%nat in
  let tosort := swap pm pj tosort in
  let '(tosort, pi) := exchange (length tosort) tosort vp pl pj in
  (swap pi (pr - 1)%nat tosort, pi).

(** [while (pj > pl && less(vp, v[*pk])) { *pj-- = *pk--; } *pj = vi;] *)
Fixpoint shift (fuel : nat) (tosort : list nat) (pl vi : nat) (vp : Z)
    (pj : nat) : list nat :=
  match fuel with
  | O => <[pj:=vi]> tosort
  | S fuel =>
      if (pl <? pj)%nat && (vp <? val tosort (pred pj)) then
        shift fuel (<[pj:=default 0%nat (tosort !! pred pj)]> tosort)
              pl vi vp (pred pj)
      else <[pj:=vi]> tosort
  end.

(** [for (pi = pl + 1; pi <= pr; ++pi)] with [todo = pr + 1 - pi]. *)
Fixpoint insertion (todo : nat) (tosort : list nat) (pl pi : nat) : list nat :=
  match todo with
  | O => tosort
  | S todo =>
      let vi := default 0%nat (tosort !! pi) in
      let vp := default 0 (v !! vi) in
      insertion todo (shift (length tosort) tosort pl vi vp pi) pl (S pi)
  end.

(** The pending ranges: [stack] and [depth] side by side. *)
Definition Pending : Type := list (nat * nat * Z).

(** The [while (1)] loop.  [top] is [true] at the head of the loop, where
    the depth budget is tested, and [false] inside the partition loop. *)
Fixpoint loop (fuel : nat) (top : bool) (tosort : list nat) (pl pr : nat)
    (cdepth : Z) (stack : Pending) : option (list nat) :=
  match fuel with
  | O => None
  | S fuel =>
      if top && (cdepth <? 0) then None
      else if (SMALL_QUICKSORT <? pr - pl)%nat then
        let '(tosort, pi) := partition tosort pl pr in
        let cdepth := cdepth - 1 in
        if (pi - pl <? pr - pi)%nat then
          loop fuel false tosort pl (pi - 1)%nat cdepth
               ((S pi, pr, cdepth) :: stack)
        else
          loop fuel false tosort (S pi) pr cdepth
               ((pl, (pi - 1)%nat, cdepth) :: stack)
      else
        let tosort := insertion (pr - pl) tosort pl (S pl) in
        match stack with
        | [] => Some tosort
        | (pl, pr, cdepth) :: stack => loop fuel true tosort pl pr cdepth stack
        end
  end.

(** [npy_get_msb(num) * 2] *)
Definition depth_limit (num : nat) : Z := Z.log2 (Z.of_nat num) * 2.

Definition aquicksort : option (list nat) :=
  let num := length v in
  loop (2 * num + 1) true (seq 0 num) 0 (num - 1)%nat (depth_limit num) [].
End keys.

(** The indexer handed to [take].  Where the model gives no answer the merge
    sort above stands in, so that the result is an indexer in every case. *)
Definition argsort (ks : list Z) : list nat :=
  default (argsort_merge ks) (aquicksort ks).
End npysort.

(** ** The flag select box (line 17) *)

(** [st.sidebar.selectbox(..., candidate_flags, index=0)]: all three options
    are offered whatever the table holds, and the box starts on the first. *)
Definition flag_options : list FlagColumn :=
  [is_observed_strict; is_observed; is_outside_observation].

Definition flag_default : FlagColumn :=
  default is_observed_strict (flag_options !! 0%nat).

(** ** The single-track plot (lines 66-77) *)

(** One call [ax.broken_barh([(xmin, width)], (0, 10))]; [hatched] tells the
    call with [hatch="////", alpha=0.5] from the plain one. *)
Record Bar : Type := {
  xmin : Q;
  width : Q;
  hatched : bool
}.

(** [obs = df[df["_observed"]]] and [out = df[~df["_observed"]]] *)
Definition obs (fr : list Window) : list Window :=
  filter (λ r, _observed r = true) fr.

Definition out (fr : list Window) : list Window :=
  filter (λ r, negb (_observed r) = true) fr.

Definition broken_barh (hatch : bool) (r : Window) : Bar :=
  {| xmin := x0 r; width := w r; hatched := hatch |}.

(** The calls of the two [iterrows] loops, in the order they are made. *)
Definition plot (fr : list Window) : list Bar :=
  (broken_barh false <$> obs fr) ++ (broken_barh true <$> out fr).

(** ** The window-context track (lines 86-121) *)

(** [df.columns] once lines 46-64 have assigned the derived columns: a new
    label is appended, an existing one keeps its place. *)
Definition frame_columns (df : DataFrame) : list string :=
  columns df ++ filter (λ c, c ∉ columns df) ["_observed"; "x0"; "x1"; "w"].

(** [[c for c in ["process", "title", "app", "window_name"] if c in df.columns]] *)
Definition context_cols (df : DataFrame) : list string :=
  filter (λ c, c ∈ frame_columns df) ["process"; "title"; "app"; "window_name"].

(** The options of the second select box and the option it starts on:
    [index=0 if not context_cols else 1]. *)
Definition context_options (df : DataFrame) : list string :=
  "(none)" :: context_cols df.

Definition context_default (df : DataFrame) : string :=
  let index := match context_cols df with [] => 0%nat | _ => 1%nat end in
  default "(none)" (context_options df !! index).

(** A face colour: entry [i] of the [tab20] palette, or ["grey"]. *)
Inductive Colour : Type :=
  | tab20 (i : nat)
  | grey.

(** [Series.unique()]: the distinct values in order of first appearance. *)
Fixpoint unique_from (seen l : list string) : list string :=
  match l with
  | [] => []
  | u :: l =>
      if decide (u ∈ seen) then unique_from seen l
      else u :: unique_from (u :: seen) l
  end.

Definition unique (l : list string) : list string := unique_from [] l.

(** [{u: cm.tab20(i % 20) for i, u in enumerate(uniq)}]: a later entry for
    the same key replaces an earlier one. *)
Definition colour_map (uniq : list string) : gmap string Colour :=
  foldl (λ m iu, <[iu.2 := tab20 (iu.1 mod 20)]> m) ∅ (imap pair uniq).

(** [colour_map.get(u, "grey")] *)
Definition face (colour_map : gmap string Colour) (u : string) : Colour :=
  default grey (colour_map !! u).

(** One call [ax2.broken_barh([(x0, w)], (0, 10), facecolors=...)]. *)
Record ContextBar : Type := {
  c_xmin : Q;
  c_width : Q;
  facecolors : Colour
}.

Section Context.
(** [str(x)] of a float cell. *)
Variable float_str : Q → string.

(** [Series.astype(str)], cell by cell. *)
Definition astype_str (c : Cell) : string :=
  match c with
  | CBool true => "True"
  | CBool false => "False"
  | CInt z => pretty z
  | CFloat q => float_str q
  | CStr s => s
  | CNaN => "nan"
  end.

(** [Series.fillna("unknown")], cell by cell. *)
Definition fillna_unknown (c : Cell) : Cell :=
  match c with
  | CNaN => CStr "unknown"
  | _ => c
  end.

(** Lines 98-102: the label of one row.  A [string] is read as the sequence
    of its characters, so that [str.slice(0, 60)] keeps the first 60 of
    them. *)
Definition label (context_col : string) (r : Window) : string :=
  let s := astype_str (fillna_unknown (get (raw (row r)) context_col)) in
  if String.eqb context_col "title" then String.substring 0 60 s else s.

Definition ctx (context_col : string) (fr : list Window) : list string :=
  label context_col <$> fr.

(** Lines 104-109: the bars of the second track, one per row of
    [zip(df["x0"], df["w"], ctx)]. *)
Definition context_track (context_col : string) (fr : list Window)
    : list ContextBar :=
  let uniq := unique (ctx context_col fr) in
  let colour_map := colour_map uniq in
  (λ r, {| c_xmin := x0 r; c_width := w r;
           facecolors := face colour_map (label context_col r) |})
  <$> fr.

(** The number of segments that carry the label [u]. *)
Definition segments_count (labels : list string) (u : string) : nat :=
  length (filter (λ u', u' = u) labels).

(** The order [value_counts] puts its rows in: [sort_values(ascending=False)]
    on the counts. *)
Variable sort_counts : list (string * nat) → list (string * nat).

(** [ctx.value_counts()] *)
Definition value_counts (labels : list string) : list (string * nat) :=
  sort_counts ((λ u, (u, segments_count labels u)) <$> unique labels).

(** Line 119: [ctx.value_counts().head(30).reset_index()]. *)
Definition legend (context_col : string) (fr : list Window)
    : list (string * nat) :=
  take 30 (value_counts (ctx context_col fr)).

(** Lines 94-123: the second track and its legend, or neither when the
    select box is on ["(none)"] ([st.info] is shown instead). *)
Definition second_track (context_col : string) (fr : list Window)
    : option (list ContextBar * list (string * nat)) :=
  if String.eqb context_col "(none)" then None
  else Some (context_track context_col fr, legend context_col fr).
End Context.

(** What is relied on of the order of [value_counts]: every row is kept, and
    the counts never increase down the table. *)
Definition count_ge (a b : string * nat) : Prop := (b.2 ≤ a.2)%nat.

Class CountsOrder (sort_counts : list (string * nat) → list (string * nat))
    : Prop := {
  sort_counts_rows l : sort_counts l ≡ₚ l;
  sort_counts_descending l : Sorted count_ge (sort_counts l)
}.

(** An order that meets this: merge sort by decreasing count. *)
Global Instance count_ge_dec a b : Decision (count_ge a b).
Proof. unfold count_ge. apply _. Defined.

Definition sort_counts_merge (l : list (string * nat)) : list (string * nat) :=
  merge_sort count_ge l.

(** ** The data preview (lines 128-130) *)

Definition preview_candidates (flag_col : FlagColumn) : list string :=
  ["window_start"; "window_end"; flag_name flag_col; "event_total";
   "click_count"; "key_count"; "scroll_count"; "move_count"].

Definition show_cols (df : DataFrame) (flag_col : FlagColumn) : list string :=
  filter (λ c, c ∈ frame_columns df) (preview_candidates flag_col).

(** A cell of the preview: the two timestamp columns hold the parsed
    timestamps since lines 38-39, every other shown column the cell read
    from the CSV. *)
Inductive PreviewCell : Type :=
  | PTimestamp (t : Z)
  | PCell (c : Cell).

Definition preview_cell (r : Window) (c : string) : PreviewCell :=
  if String.eqb c "window_start" then PTimestamp (window_start (row r))
  else if String.eqb c "window_end" then PTimestamp (window_end (row r))
  else PCell (get (raw (row r)) c).

(** [df[show_cols].head(200)] *)
Definition preview (df : DataFrame) (flag_col : FlagColumn) (fr : list Window)
    : list (list PreviewCell) :=
  (λ r, preview_cell r <$> show_cols df flag_col) <$> take 200 fr.

(** ** Tables used below *)

Definition capture (start end_ : string) (flag_col : FlagColumn) (flag : Cell)
    : CsvRecord :=
  {[ "window_start" := CStr start; "window_end" := CStr end_;
     flag_name flag_col := flag ]}.

(** The two-row table of the worked scenario. *)
Definition scenario : DataFrame :=
  {| columns := ["window_start"; "window_end"; "is_observed_strict"];
     records :=
       [ capture "2026-01-20T10:00:00Z" "2026-01-20T10:00:05Z"
                 is_observed_strict (CBool true);
         capture "2026-01-20T10:00:10Z" "2026-01-20T10:00:08Z"
                 is_observed_strict (CBool false) ] |}.

(** Eighteen windows that all start at the same instant; only the second one
    (index label 1) is flagged as not observed. *)
Definition ties : DataFrame :=
  {| columns := ["window_start"; "window_end"; "is_observed_strict"];
     records :=
       (λ i : nat, capture "2026-01-20T10:00:00Z" "2026-01-20T10:00:05Z"
                     is_observed_strict (CBool (negb (i =? 1)%nat)))
       <$> seq 0 18 |}.

(** The view of the scenario, and its second bar, whose window ends before it
    starts. *)
Definition scenario_view : View :=
  transform iso8601.to_datetime argsort_merge scenario is_observed_strict.

Definition scenario_late : Window :=
  timeline 1768903200000000000 is_observed_strict
    {| index := 1;
       raw := capture "2026-01-20T10:00:10Z" "2026-01-20T10:00:08Z"
                      is_observed_strict (CBool false);
       window_start := 1768903210000000000;
       window_end := 1768903208000000000 |}.

(** A table whose header lacks [window_end]. *)
Definition no_end : DataFrame :=
  {| columns := ["window_start"; "is_observed_strict"];
     records := [ {[ "window_start" := CStr "2026-01-20T10:00:00Z";
                     "is_observed_strict" := CBool true ]} ] |}.

(** A table with an empty [window_start] in its first line and a
    [window_end] that is no timestamp in its third. *)
Definition messy : DataFrame :=
  {| columns := ["window_start"; "window_end"; "is_observed"];
     records :=
       [ {[ "window_start" := CNaN;
            "window_end" := CStr "2026-01-20T10:00:05Z";
            "is_observed" := CInt 1 ]};
         capture "2026-01-20T10:00:10Z" "2026-01-20T10:00:12Z"
                 is_observed (CInt 0);
         capture "2026-01-20T10:00:20Z" "later" is_observed (CInt 1) ] |}.

(** A table whose only line has no value in the flag column. *)
Definition unflagged : DataFrame :=
  {| columns := ["window_start"; "window_end"; "is_outside_observation"];
     records :=
       [ capture "2026-01-20T10:00:00Z" "2026-01-20T10:00:05Z"
                 is_outside_observation CNaN ] |}.


(** A table in which no line has a [window_start]. *)
Definition unreadable : DataFrame :=
  {| columns := ["window_start"; "window_end"; "is_observed"];
     records :=
       [ {[ "window_start" := CNaN;
            "window_end" := CStr "2026-01-20T10:00:05Z";
            "is_observed" := CBool true ]};
         capture "yesterday" "2026-01-20T10:00:12Z" is_observed (CBool true) ] |}.

(** A table with the context columns [title] and [app] and one counter; the
    second line names no [app]. *)
Definition desktop : DataFrame :=
  {| columns := ["window_start"; "window_end"; "is_observed"; "title"; "app";
                 "key_count"];
     records :=
       [ <["title" := CStr "notes.txt"]> (<["app" := CStr "editor"]>
           (<["key_count" := CInt 12]>
              (capture "2026-01-20T10:00:00Z" "2026-01-20T10:00:05Z"
                       is_observed (CBool true))));
         <["title" := CStr "inbox"]> (<["app" := CNaN]>
           (<["key_count" := CInt 0]>
              (capture "2026-01-20T10:00:05Z" "2026-01-20T10:00:09Z"
                       is_observed (CBool false))));
         <["title" := CStr "main.py"]> (<["app" := CStr "editor"]>
           (<["key_count" := CInt 40]>
              (capture "2026-01-20T10:00:09Z" "2026-01-20T10:00:30Z"
                       is_observed (CBool true)))) ] |}.

Definition desktop_view : View :=
  transform iso8601.to_datetime argsort_merge desktop is_observed.

(** Twenty-one one-second windows, each of a process of its own. *)
Definition crowd : list Window :=
  (λ i : nat,
     timeline 0 is_observed
       {| index := i; raw := {[ "process" := CInt (Z.of_nat i) ]};
          window_start := Z.of_nat i * 1000000000;
          window_end := (Z.of_nat i + 1) * 1000000000 |})
  <$> seq 0 21.


(** The tables above hold no float cell; this stands for [str] of a float
    where one has to be named. *)
Definition no_float_str (q : Q) : string := "".

(** The parts of a view that the properties below read. *)
Definition summary (v : View) : Z * Z * Z := (total v, observed_n v, outside_n v).

Definition bars (v : View) : list (nat * bool * Q * Q * Q) :=
  (λ b, (index (row b), _observed b, x0 b, x1 b, w b)) <$> frame v.

Definition project (s : Script View) :=
  match s with
  | Rendered v => Some (t0 v, bars v, summary v)
  | Stopped _ => None
  end.

(** * Properties *)

(** Goals closed by evaluation. *)
Ltac evaluated := vm_compute; reflexivity.
Ltac decided :=
  match goal with |- ?P => apply (bool_decide_unpack P); evaluated end.


(** ** Reading a list through an indexer *)

Section take_at.
Context {A : Type}.
Implicit Types (l : list A) (ix : list nat).

Lemma take_at_seq_from l1 l2 :
  take_at (seq (length l1) (length l2)) (l1 ++ l2) = l2.
Proof.
  revert l1. induction l2 as [|x l2 IH]; intros l1; [done|].
  unfold take_at in *. cbn [length seq omap list_omap].
  rewrite list_lookup_middle by done.
  f_equal. specialize (IH (l1 ++ [x])).
  rewrite length_app, <-app_assoc in IH. cbn in IH.
  by rewrite Nat.add_1_r in IH.
Qed.

Lemma take_at_seq l : take_at (seq 0 (length l)) l = l.
Proof. apply (take_at_seq_from []). Qed.

Lemma take_at_Permutation ix l : ix ≡ₚ seq 0 (length l) → take_at ix l ≡ₚ l.
Proof.
  intros Hix. rewrite <-(take_at_seq l) at 2. unfold take_at. by rewrite Hix.
Qed.

Lemma take_at_fmap {B} (f : A → B) ix l :
  f <$> take_at ix l = take_at ix (f <$> l).
Proof.
  unfold take_at. rewrite list_fmap_omap.
  apply list_omap_ext, Forall2_same_length_lookup_2; [done|].
  intros i x y Hx Hy. simplify_eq. by rewrite list_lookup_fmap.
Qed.
End take_at.

Lemma elem_of_take_at {A} (ix : list nat) (l : list A) x :
  x ∈ take_at ix l → x ∈ l.
Proof.
  unfold take_at. rewrite list_elem_of_omap.
  intros (i & _ & Hi). by eapply list_elem_of_lookup_2.
Qed.

Lemma take_at_in_range (ix : list nat) (ks : list Z) :
  Forall (λ i, (i < length ks)%nat) ix → take_at ix ks = key_at ks <$> ix.
Proof.
  unfold take_at. induction 1 as [|i ix Hi _ IH]; [done|].
  cbn. apply lookup_lt_is_Some_2 in Hi as [k Hk].
  unfold key_at at 1. rewrite Hk. cbn. by f_equal.
Qed.

(** ** The merge-sort indexer meets the contract *)

Global Instance key_le_total ks : Total (key_le ks).
Proof. intros i j. unfold key_le. lia. Qed.

Global Instance argsort_merge_spec : Argsort argsort_merge.
Proof.
  split; intros ks; unfold argsort_merge.
  - apply merge_sort_Permutation.
  - rewrite take_at_in_range.
    + eapply Sorted_fmap, Sorted_merge_sort, _. by intros i j.
    + rewrite merge_sort_Permutation. apply Forall_seq. lia.
Qed.

(** ** [sort_values] under the contract *)

Section sort_values.
Context (argsort : list Z → list nat) `{!Argsort argsort}.
Implicit Types rows : list Row.

Lemma sort_values_Permutation rows : sort_values argsort rows ≡ₚ rows.
Proof.
  apply take_at_Permutation.
  by rewrite argsort_positions, length_fmap.
Qed.

Lemma sort_values_Sorted rows :
  Sorted Z.le (window_start <$> sort_values argsort rows).
Proof. unfold sort_values. rewrite take_at_fmap. apply argsort_ascending. Qed.

Lemma sort_values_length rows : length (sort_values argsort rows) = length rows.
Proof. by rewrite sort_values_Permutation. Qed.
End sort_values.

Global Instance start_le_trans : Transitive start_le.
Proof. intros a b c. unfold start_le. lia. Qed.

Lemma Sorted_by_key (rows : list Row) :
  Sorted Z.le (window_start <$> rows) → Sorted start_le rows.
Proof.
  induction rows as [|a rows IH]; [constructor|].
  cbn. inv 1. constructor; [by apply IH|].
  destruct rows; [constructor|]. by match goal with H : HdRel _ _ _ |- _ => inv H; constructor end.
Qed.

Lemma NoDup_fmap_eq {A B} (f : A → B) (l : list A) x y :
  NoDup (f <$> l) → x ∈ l → y ∈ l → f x = f y → x = y.
Proof.
  induction l as [|a l IH]; cbn; [by intros _ ?%elem_of_nil|].
  intros Hnd [->|Hx]%elem_of_cons [->|Hy]%elem_of_cons Hxy;
    pose proof (NoDup_cons_1_1 _ _ Hnd) as Ha;
    pose proof (NoDup_cons_1_2 _ _ Hnd) as Hl;
    [done| | |by apply IH].
  - destruct Ha. rewrite Hxy. by apply list_elem_of_fmap_2.
  - destruct Ha. rewrite <-Hxy. by apply list_elem_of_fmap_2.
Qed.

(** With pairwise distinct keys the order of the result does not depend on
    the sorting algorithm. *)
Lemma sort_values_unique (argsort1 argsort2 : list Z → list nat)
    `{!Argsort argsort1, !Argsort argsort2} (rows : list Row) :
  NoDup (window_start <$> rows) →
  sort_values argsort1 rows = sort_values argsort2 rows.
Proof.
  intros Hnd.
  apply (Sorted_unique_strong start_le).
  - unfold start_le. intros a b Ha Hb ??.
    apply (NoDup_fmap_eq window_start rows); [done| | |lia].
    + by rewrite <-(sort_values_Permutation argsort1).
    + by rewrite <-(sort_values_Permutation argsort2).
  - apply Sorted_by_key, sort_values_Sorted, _.
  - apply Sorted_by_key, sort_values_Sorted, _.
  - by rewrite !sort_values_Permutation.
Qed.

(** ** The schema checks *)

Lemma missing_nil df :
  missing df = [] ↔ "window_start" ∈ columns df ∧ "window_end" ∈ columns df.
Proof.
  unfold missing, required_cols. rewrite !filter_cons, filter_nil.
  destruct (decide ("window_start" ∉ columns df)) as [?|?%dec_stable];
    destruct (decide ("window_end" ∉ columns df)) as [?|?%dec_stable];
    (split; [intros ?; by simplify_eq|by intros [??]]).
Qed.

Section pipeline.
Context (to_datetime : list Cell → list (option Z)).
Context (argsort : list Z → list nat).
Implicit Types (df : DataFrame) (flag_col : FlagColumn).

Lemma normalize_Rendered df flag_col :
  "window_start" ∈ columns df → "window_end" ∈ columns df →
  flag_name flag_col ∈ columns df →
  normalize to_datetime argsort df flag_col = Rendered (transform to_datetime argsort df flag_col).
Proof.
  intros Hs He Hf. unfold normalize, validate_required, validate_flag.
  rewrite (proj2 (missing_nil df)) by done. cbn.
  by rewrite decide_True.
Qed.

Lemma normalize_Rendered_inv df flag_col v :
  normalize to_datetime argsort df flag_col = Rendered v →
  v = transform to_datetime argsort df flag_col ∧ "window_start" ∈ columns df
  ∧ "window_end" ∈ columns df ∧ flag_name flag_col ∈ columns df.
Proof.
  unfold normalize, validate_required, validate_flag.
  destruct (missing df) eqn:Hm; [|done]. apply missing_nil in Hm as [??].
  cbn. case_decide; [|done]. cbn. unfold mret, Script_ret. naive_solver.
Qed.

Lemma series_min_None (l : list Z) : series_min l = None ↔ l = [].
Proof. by destruct l. Qed.

(** The frame holds the sorted rows, one bar each. *)
Lemma frame_rows df flag_col :
  row <$> frame (transform to_datetime argsort df flag_col) = sort_values argsort (dropna (parse to_datetime df)).
Proof.
  unfold transform. cbn.
  destruct (series_min _) as [t|] eqn:Ht.
  - rewrite <-list_fmap_compose. apply list_fmap_id.
  - apply series_min_None, fmap_nil_inv in Ht. by rewrite Ht.
Qed.

Lemma frame_timeline df flag_col b :
  b ∈ frame (transform to_datetime argsort df flag_col) →
  ∃ t, t0 (transform to_datetime argsort df flag_col) = Some t ∧ b = timeline t flag_col (row b)
       ∧ row b ∈ sort_values argsort (dropna (parse to_datetime df)).
Proof.
  unfold transform. cbn.
  destruct (series_min _) as [t|]; [|by intros ?%elem_of_nil].
  intros (r & -> & Hr)%list_elem_of_fmap. by exists t.
Qed.

(** A row after [dropna] is a record of the input with both timestamps
    parsed. *)
Lemma elem_of_dropna df r :
  r ∈ dropna (parse to_datetime df) ↔
    records df !! index r = Some (raw r)
    ∧ mjoin (to_datetime (column df "window_start") !! index r)
      = Some (window_start r)
    ∧ mjoin (to_datetime (column df "window_end") !! index r)
      = Some (window_end r).
Proof.
  unfold dropna, parse. rewrite list_elem_of_omap. split.
  - intros (p & Hp & Hr). apply list_elem_of_lookup in Hp as [i Hp].
    rewrite list_lookup_imap in Hp.
    destruct (records df !! i) as [rec|] eqn:Hrec; [|done]. simplify_eq/=.
    unfold dropna_row in Hr. cbn in Hr.
    repeat case_match; simplify_eq/=. done.
  - intros (Hrec & Hs & He). eexists. split.
    + apply list_elem_of_lookup. exists (index r).
      rewrite list_lookup_imap, Hrec. done.
    + unfold dropna_row. cbn. rewrite Hs, He. by destruct r.
Qed.
End pipeline.

(** ** Seconds and clipping *)

Lemma total_seconds_mono a b : a ≤ b ↔ (total_seconds a <= total_seconds b)%Q.
Proof.
  unfold total_seconds. rewrite !Qred_correct. unfold Qle. cbn. lia.
Qed.

Lemma total_seconds_0 : total_seconds 0 = 0%Q.
Proof. reflexivity. Qed.

Lemma clip_lower_ge lo x : (lo <= clip_lower lo x)%Q.
Proof.
  unfold clip_lower. destruct (Qle_bool lo x) eqn:Hle.
  - by apply Qle_bool_iff.
  - apply Qle_refl.
Qed.

Lemma clip_lower_below lo x : (x < lo)%Q → clip_lower lo x = lo.
Proof.
  unfold clip_lower. intros Hlt. destruct (Qle_bool lo x) eqn:Hle; [|done].
  apply Qle_bool_iff in Hle. by apply Qle_not_lt in Hle.
Qed.

Lemma total_seconds_sub_neg a b :
  a < b → (total_seconds a - total_seconds b < 0)%Q.
Proof.
  intros Hlt. unfold total_seconds. rewrite !Qred_correct.
  unfold Qlt, Qminus, Qplus, Qopp. cbn. lia.
Qed.

(** ** The minimum of the start column *)

Lemma foldr_min_le t l : foldr Z.min t l ≤ t ∧ Forall (λ x, foldr Z.min t l ≤ x) l.
Proof.
  induction l as [|x l [IH1 IH2]]; cbn; [by split|].
  split; [lia|]. constructor; [lia|].
  eapply Forall_impl; [done|]. cbn. intros ??. lia.
Qed.

Lemma series_min_le l t x : series_min l = Some t → x ∈ l → t ≤ x.
Proof.
  destruct l as [|y l]; [done|]. cbn. intros [= <-].
  destruct (foldr_min_le y l) as [Hy Hl].
  intros [->|Hx]%elem_of_cons; [done|].
  rewrite Forall_forall in Hl. by apply Hl.
Qed.

Lemma series_min_Sorted l t x l' :
  Sorted Z.le l → l = x :: l' → series_min l = Some t → t = x.
Proof.
  intros Hs%Sorted_StronglySorted -> [= <-]; [|apply _].
  apply StronglySorted_inv in Hs as [_ Hx].
  clear -Hx. induction Hx as [|y l' Hy _ IH]; cbn; lia.
Qed.

(** ** The rows of the rendered frame *)

Section claims.
Context (to_datetime : list Cell → list (option Z)).
Context (argsort : list Z → list nat).
Implicit Types (df : DataFrame) (flag_col : FlagColumn) (v : View) (b : Window).

(** Every bar of a rendered frame is the [timeline] of a surviving row. *)
Lemma rendered_bar df flag_col v b :
  normalize to_datetime argsort df flag_col = Rendered v → b ∈ frame v →
  ∃ t, t0 v = Some t ∧ b = timeline t flag_col (row b)
       ∧ row b ∈ dropna (parse to_datetime df).
Proof.
  intros (-> & _)%normalize_Rendered_inv Hb.
  apply frame_timeline in Hb as (t & Ht & Hb & Hrow).
  exists t. by apply elem_of_take_at in Hrow.
Qed.

Lemma rendered_t0 df flag_col v t :
  normalize to_datetime argsort df flag_col = Rendered v → t0 v = Some t →
  series_min (window_start <$> (row <$> frame v)) = Some t.
Proof.
  intros (-> & _)%normalize_Rendered_inv. by rewrite frame_rows.
Qed.
End claims.

Lemma frame_length to_datetime argsort df flag_col :
  length (frame (transform to_datetime argsort df flag_col))
  = length (sort_values argsort (dropna (parse to_datetime df))).
Proof. by rewrite <-(frame_rows _ _ _ flag_col), length_fmap. Qed.

(** The counts of the sidebar describe the frame. *)
Lemma summary_of_frame to_datetime argsort df flag_col :
  let v := transform to_datetime argsort df flag_col in
  total v = Z.of_nat (length (frame v))
  ∧ observed_n v
    = Z.of_nat (length (filter (λ b, _observed b = true) (frame v)))
  ∧ observed_n v + outside_n v = total v.
Proof.
  intros v. split; [by unfold v; rewrite frame_length|].
  split; [|by unfold v; cbn; lia].
  unfold v, transform. cbn. f_equal.
  destruct (series_min _) as [t|] eqn:Ht.
  - clear Ht. induction (sort_values argsort _) as [|r rows IH]; [done|].
    rewrite !fmap_cons, !filter_cons. cbn.
    destruct (decide (observed_of flag_col r = true)); cbn; by rewrite IH.
  - apply series_min_None, fmap_nil_inv in Ht. by rewrite Ht.
Qed.

(** The worked scenario under the default [kind="quicksort"]. *)
Example scenario_quicksort :
  project (normalize iso8601.to_datetime npysort.argsort scenario
                     is_observed_strict)
  = Some (iso8601.parse "2026-01-20T10:00:00Z",
          [ (0%nat, true, 0%Q, 5%Q, 5%Q); (1%nat, false, 10%Q, 8%Q, 0%Q) ],
          (2, 1, 1)).
Proof. evaluated. Qed.

(** C2: for every surviving row, under the flag column
    [is_outside_observation] the [_observed] value is the negation of the
    boolean coercion of the raw flag cell of that input record, and under
    every other flag column it is the coercion itself; a raw [True] therefore
    gives [False] under [is_outside_observation] and [True] otherwise. *)
Theorem observed_follows_flag to_datetime argsort df flag_col v b :
  normalize to_datetime argsort df flag_col = Rendered v → b ∈ frame v →
  ∃ rec, records df !! index (row b) = Some rec ∧
    let raw_flag := get rec (flag_name flag_col) in
    (flag_name flag_col = "is_outside_observation" →
       _observed b = negb (astype_bool raw_flag)) ∧
    (flag_name flag_col ≠ "is_outside_observation" →
       _observed b = astype_bool raw_flag) ∧
    (raw_flag = CBool true →
       _observed b = negb (bool_decide (flag_name flag_col = "is_outside_observation"))).
Proof.
  intros Hv Hb.
  destruct (rendered_bar _ _ _ _ _ _ Hv Hb) as (t & _ & -> & Hrow).
  apply elem_of_dropna in Hrow as (Hrec & _). exists (raw (row b)).
  split; [done|]. cbn. unfold observed_of.
  destruct flag_col; cbn; repeat split; try done; by intros ->.
Qed.


(** C4: every surviving row has [w ≥ 0]; a row whose [window_end] is earlier
    than its [window_start] is kept, with [w] clamped to [0]. *)
Theorem duration_nonneg to_datetime argsort df flag_col v b :
  normalize to_datetime argsort df flag_col = Rendered v → b ∈ frame v →
  (0 <= w b)%Q
  ∧ (window_end (row b) < window_start (row b) → w b = 0%Q).
Proof.
  intros Hv Hb.
  destruct (rendered_bar _ _ _ _ _ _ Hv Hb) as (t & _ & -> & _).
  cbn. split; [apply clip_lower_ge|].
  intros Hlt. apply clip_lower_below. rewrite Qred_correct.
  apply total_seconds_sub_neg. lia.
Qed.



(** C9: in a rendered frame every [x0] is non-negative, the epoch [t0] being
    the minimum [window_start] of the surviving rows, and the first row of
    the sorted frame has [x0 = 0]. *)
Theorem offset_start_nonneg to_datetime argsort `{!Argsort argsort}
    df flag_col v :
  normalize to_datetime argsort df flag_col = Rendered v →
  (∀ b, b ∈ frame v →
     (0 <= x0 b)%Q
     ∧ ∃ t, t0 v = Some t ∧ t ≤ window_start (row b)
            ∧ x0 b = total_seconds (window_start (row b) - t))
  ∧ (∀ b bs, frame v = b :: bs → x0 b = 0%Q).
Proof.
  intros Hv. split.
  - intros b Hb.
    destruct (rendered_bar _ _ _ _ _ _ Hv Hb) as (t & Ht & Hbar & _).
    assert (t ≤ window_start (row b)) as Hle.
    { eapply series_min_le; [by eapply rendered_t0|].
      by apply list_elem_of_fmap_2, list_elem_of_fmap_2. }
    assert (x0 b = total_seconds (window_start (row b) - t)) as Hx0
      by (by rewrite Hbar at 1).
    split; [|by exists t].
    rewrite Hx0, <-total_seconds_0. apply (proj1 (total_seconds_mono _ _)). lia.
  - intros b bs Hframe.
    assert (b ∈ frame v) as Hb by (rewrite Hframe; left).
    destruct (rendered_bar _ _ _ _ _ _ Hv Hb) as (t & Ht & Hbar & _).
    pose proof (rendered_t0 _ _ _ _ _ _ Hv Ht) as Hmin.
    apply normalize_Rendered_inv in Hv as (-> & _).
    pose proof (sort_values_Sorted argsort (dropna (parse to_datetime df)))
      as Hsorted.
    rewrite <-(frame_rows _ _ _ flag_col), Hframe in Hsorted.
    rewrite Hframe in Hmin.
    rewrite (series_min_Sorted _ _ _ _ Hsorted eq_refl Hmin) in Hbar.
    rewrite Hbar. cbn. by rewrite Z.sub_diag.
Qed.

Lemma normalize_argsort_ext to_datetime argsort1 argsort2 df flag_col :
  sort_values argsort1 (dropna (parse to_datetime df))
  = sort_values argsort2 (dropna (parse to_datetime df)) →
  normalize to_datetime argsort1 df flag_col
  = normalize to_datetime argsort2 df flag_col.
Proof. unfold normalize, transform. by intros ->. Qed.

(** C1: the worked scenario.  Epoch 10:00:00Z; first row [x0 = 0], [x1 = 5],
    [w = 5], observed; second row [x0 = 10], [x1 = 8], [w = 0], not observed;
    counts [total = 2], [observed_n = 1], [outside_n = 1]. *)
Theorem scenario_normalized argsort `{!Argsort argsort} :
  ∃ v,
    normalize iso8601.to_datetime argsort scenario is_observed_strict
      = Rendered v
    ∧ t0 v = iso8601.parse "2026-01-20T10:00:00Z"
    ∧ bars v = [ (0%nat, true, 0%Q, 5%Q, 5%Q); (1%nat, false, 10%Q, 8%Q, 0%Q) ]
    ∧ summary v = (2, 1, 1).
Proof.
  rewrite (normalize_argsort_ext _ argsort argsort_merge).
  - eexists. split; [by vm_compute|]. by vm_compute.
  - apply sort_values_unique; [done|apply _|].
    apply (bool_decide_unpack _). by vm_compute.
Qed.

(** C7: when [window_start], [window_end] or the chosen flag column is not
    among the columns, the script stops with an error that the column labels
    alone determine: whatever the records, the parser and the sort are, the
    outcome is that error and no view. *)
Theorem schema_error_before_rows df flag_col :
  "window_start" ∉ columns df ∨ "window_end" ∉ columns df
  ∨ flag_name flag_col ∉ columns df →
  ∃ h,
    (h = MissingRequired (missing df) ∧ missing df ≠ []
     ∨ h = MissingFlag (flag_name flag_col) ∧ missing df = [])
    ∧ ∀ to_datetime argsort recs,
        normalize to_datetime argsort
          {| columns := columns df; records := recs |} flag_col
        = Stopped h.
Proof.
  intros Habsent. unfold normalize, validate_required, validate_flag.
  assert (∀ recs, missing {| columns := columns df; records := recs |}
                  = missing df) as Hm by done.
  destruct (missing df) as [|c m] eqn:Hmiss.
  - apply missing_nil in Hmiss as [Hs He].
    destruct Habsent as [?|[?|Hf]]; [done..|].
    exists (MissingFlag (flag_name flag_col)). split; [by right|].
    intros ???. rewrite Hm. cbn. by rewrite decide_False.
  - exists (MissingRequired (c :: m)). split; [by left|].
    intros ???. by rewrite Hm.
Qed.

Lemma dropna_row_None p : dropna_row p = None ↔ unparseable p.
Proof.
  unfold dropna_row, unparseable.
  destruct (p_start p), (p_end p); split; intros H;
    first [done | by left | by right | by destruct H].
Qed.

Lemma dropna_row_index p r : dropna_row p = Some r → index r = p_index p.
Proof.
  unfold dropna_row. destruct (p_start p), (p_end p); by intros [= <-].
Qed.

Lemma dropna_index ps :
  index <$> dropna ps = p_index <$> filter (λ p, ¬ unparseable p) ps.
Proof.
  unfold dropna. induction ps as [|p ps IH]; [done|].
  rewrite filter_cons. cbn. destruct (dropna_row p) as [r|] eqn:Hr.
  - rewrite decide_True; [|by rewrite <-dropna_row_None, Hr].
    cbn. by rewrite IH, (dropna_row_index p r).
  - rewrite decide_False; [done|]. rewrite <-dropna_row_None. by intros [].
Qed.

Lemma dropna_length ps :
  (length (dropna ps) + length (filter unparseable ps) = length ps)%nat.
Proof.
  unfold dropna. induction ps as [|p ps IH]; [done|].
  rewrite filter_cons. cbn. destruct (dropna_row p) as [r|] eqn:Hr.
  - rewrite decide_False; [cbn; lia|]. by rewrite <-dropna_row_None, Hr.
  - rewrite decide_True; [cbn; lia|]. by rewrite <-dropna_row_None.
Qed.

(** C8: with the schema in place the script renders whatever the cells hold.
    A row whose [window_start] or [window_end] parses to [NaT] is absent from
    the frame, every other row is present exactly once, and [total] is the
    number of input rows minus the number of unparseable rows. *)
Theorem unparseable_rows_dropped to_datetime argsort `{!Argsort argsort}
    df flag_col :
  "window_start" ∈ columns df → "window_end" ∈ columns df →
  flag_name flag_col ∈ columns df →
  ∃ v, normalize to_datetime argsort df flag_col = Rendered v
    ∧ total v = Z.of_nat (length (records df))
                - Z.of_nat (length (filter unparseable (parse to_datetime df)))
    ∧ total v = Z.of_nat (length (frame v))
    ∧ index <$> (row <$> frame v)
      ≡ₚ p_index <$> filter (λ p, ¬ unparseable p) (parse to_datetime df).
Proof.
  intros Hs He Hf. eexists. split; [by apply normalize_Rendered|].
  pose proof (dropna_length (parse to_datetime df)) as Hlen.
  unfold parse at 3 in Hlen. rewrite length_imap in Hlen.
  split; [|split].
  - cbn. rewrite sort_values_length by done. lia.
  - rewrite frame_length. done.
  - by rewrite frame_rows, sort_values_Permutation, dropna_index.
Qed.

(** C10: a surviving row whose flag cell is [NaN] stays in the frame, and
    its [_observed] is [True] under every flag column except
    [is_outside_observation], where it is [False]. *)
Theorem nan_flag_observed to_datetime argsort `{!Argsort argsort}
    df flag_col i rec s e :
  "window_start" ∈ columns df → "window_end" ∈ columns df →
  flag_name flag_col ∈ columns df →
  records df !! i = Some rec →
  mjoin (to_datetime (column df "window_start") !! i) = Some s →
  mjoin (to_datetime (column df "window_end") !! i) = Some e →
  get rec (flag_name flag_col) = CNaN →
  astype_bool (get rec (flag_name flag_col)) = true
  ∧ ∃ v b, normalize to_datetime argsort df flag_col = Rendered v
    ∧ b ∈ frame v ∧ index (row b) = i ∧ raw (row b) = rec
    ∧ _observed b
      = negb (bool_decide (flag_name flag_col = "is_outside_observation")).
Proof.
  intros Hs He Hf Hrec Hstart Hend Hnan. split; [by rewrite Hnan|].
  set (r := {| index := i; raw := rec; window_start := s; window_end := e |}).
  assert (r ∈ sort_values argsort (dropna (parse to_datetime df))) as Hr.
  { rewrite sort_values_Permutation by done. by apply elem_of_dropna. }
  exists (transform to_datetime argsort df flag_col).
  rewrite normalize_Rendered by done.
  unfold transform. cbn.
  destruct (series_min _) as [t|] eqn:Ht.
  - exists (timeline t flag_col r). split; [done|].
    split; [by apply list_elem_of_fmap_2|].
    cbn. unfold observed_of. cbn. rewrite Hnan. by destruct flag_col.
  - apply series_min_None, fmap_nil_inv in Ht. rewrite Ht in Hr.
    by apply elem_of_nil in Hr.
Qed.

(** C6 fails as stated: [sort_values] runs with its default
    [kind="quicksort"], which is not a stable sort.  On eighteen rows with
    one [window_start] the partition step of NumPy's quicksort exchanges
    equal keys: the rows labelled 1..15 come out in reverse, and the one row
    that is not observed moves from second place to sixteenth. *)
Lemma ties_reordered :
  ∃ v,
    normalize iso8601.to_datetime npysort.argsort ties is_observed_strict
      = Rendered v
    ∧ npysort.aquicksort
        (window_start <$> dropna (parse iso8601.to_datetime ties))
      = Some [0; 15; 14; 13; 12; 11; 10; 9; 8; 7; 6; 5; 4; 3; 2; 1; 16; 17]%nat
    ∧ index <$> (row <$> frame v)
      = [0; 15; 14; 13; 12; 11; 10; 9; 8; 7; 6; 5; 4; 3; 2; 1; 16; 17]%nat
    ∧ _observed <$> frame v
      = replicate 15 true ++ [false; true; true]
    ∧ ¬ ties_in_input_order (row <$> frame v).
Proof.
  eexists. split; [by vm_compute|].
  split; [by vm_compute|]. split; [by vm_compute|]. split; [by vm_compute|].
  intros Hstable.
  pose proof (Hstable 1%nat 2%nat _ _ ltac:(lia) eq_refl eq_refl eq_refl) as Hlt.
  vm_compute in Hlt. lia.
Qed.

(** C6, amended: the surviving rows are put in ascending [window_start]
    order and the result is a rearrangement of exactly the surviving rows;
    when no two surviving rows share a [window_start] the outcome is the
    same for every sorting algorithm.  The order among rows with equal
    [window_start] is not fixed. *)
Theorem sort_ascending_rearrangement to_datetime argsort `{!Argsort argsort}
    df flag_col :
  "window_start" ∈ columns df → "window_end" ∈ columns df →
  flag_name flag_col ∈ columns df →
  ∃ v, normalize to_datetime argsort df flag_col = Rendered v
    ∧ Sorted start_le (row <$> frame v)
    ∧ row <$> frame v ≡ₚ dropna (parse to_datetime df)
    ∧ (NoDup (window_start <$> dropna (parse to_datetime df)) →
       ∀ argsort', Argsort argsort' →
         normalize to_datetime argsort' df flag_col = Rendered v).
Proof.
  intros Hs He Hf. eexists. split; [by apply normalize_Rendered|].
  rewrite frame_rows. split; [|split].
  - apply Sorted_by_key, sort_values_Sorted, _.
  - by apply sort_values_Permutation.
  - intros Hnd argsort' ?. rewrite <-normalize_Rendered by done.
    apply normalize_argsort_ext. by apply sort_values_unique.
Qed.

(** ** The theorems at concrete tables *)

Lemma scenario_rendered :
  normalize iso8601.to_datetime argsort_merge scenario is_observed_strict
  = Rendered scenario_view.
Proof. evaluated. Defined.

Lemma scenario_late_bar : scenario_late ∈ frame scenario_view.
Proof. apply (list_elem_of_lookup_2 _ 1%nat). evaluated. Defined.

Lemma scenario_normalized_witness :
  ∃ v,
    normalize iso8601.to_datetime argsort_merge scenario is_observed_strict
      = Rendered v
    ∧ t0 v = iso8601.parse "2026-01-20T10:00:00Z"
    ∧ bars v = [ (0%nat, true, 0%Q, 5%Q, 5%Q); (1%nat, false, 10%Q, 8%Q, 0%Q) ]
    ∧ summary v = (2, 1, 1).
Proof. exact (scenario_normalized argsort_merge). Defined.

Lemma observed_follows_flag_witness :
  normalize iso8601.to_datetime argsort_merge scenario is_observed_strict
    = Rendered scenario_view
  ∧ scenario_late ∈ frame scenario_view
  ∧ ∃ rec, records scenario !! index (row scenario_late) = Some rec ∧
      let raw_flag := get rec "is_observed_strict" in
      ("is_observed_strict" = "is_outside_observation" →
         _observed scenario_late = negb (astype_bool raw_flag)) ∧
      ("is_observed_strict" ≠ "is_outside_observation" →
         _observed scenario_late = astype_bool raw_flag) ∧
      (raw_flag = CBool true →
         _observed scenario_late
         = negb (bool_decide ("is_observed_strict" = "is_outside_observation"))).
Proof.
  split; [exact scenario_rendered|]. split; [exact scenario_late_bar|].
  exact (observed_follows_flag _ _ _ _ _ _ scenario_rendered scenario_late_bar).
Defined.


Lemma duration_nonneg_witness :
  normalize iso8601.to_datetime argsort_merge scenario is_observed_strict
    = Rendered scenario_view
  ∧ scenario_late ∈ frame scenario_view
  ∧ (0 <= w scenario_late)%Q
  ∧ (window_end (row scenario_late) < window_start (row scenario_late) →
     w scenario_late = 0%Q).
Proof.
  split; [exact scenario_rendered|]. split; [exact scenario_late_bar|].
  exact (duration_nonneg _ _ _ _ _ _ scenario_rendered scenario_late_bar).
Defined.


Lemma sort_ascending_rearrangement_witness :
  "window_start" ∈ columns scenario ∧ "window_end" ∈ columns scenario
  ∧ flag_name is_observed_strict ∈ columns scenario
  ∧ ∃ v,
      normalize iso8601.to_datetime argsort_merge scenario is_observed_strict
        = Rendered v
      ∧ Sorted start_le (row <$> frame v)
      ∧ row <$> frame v ≡ₚ dropna (parse iso8601.to_datetime scenario)
      ∧ (NoDup (window_start <$> dropna (parse iso8601.to_datetime scenario)) →
         ∀ argsort', Argsort argsort' →
           normalize iso8601.to_datetime argsort' scenario is_observed_strict
           = Rendered v).
Proof.
  assert ("window_start" ∈ columns scenario) as Hs by decided.
  assert ("window_end" ∈ columns scenario) as He by decided.
  assert (flag_name is_observed_strict ∈ columns scenario) as Hf by decided.
  do 3 (split; [done|]).
  exact (sort_ascending_rearrangement iso8601.to_datetime argsort_merge
           scenario is_observed_strict Hs He Hf).
Defined.

Lemma schema_error_before_rows_witness :
  ("window_end" ∉ columns no_end)
  ∧ ∃ h,
      (h = MissingRequired (missing no_end) ∧ missing no_end ≠ []
       ∨ h = MissingFlag (flag_name is_observed_strict) ∧ missing no_end = [])
      ∧ ∀ to_datetime argsort recs,
          normalize to_datetime argsort
            {| columns := columns no_end; records := recs |} is_observed_strict
          = Stopped h.
Proof.
  assert ("window_end" ∉ columns no_end) as He by decided.
  split; [done|].
  exact (schema_error_before_rows no_end is_observed_strict
           (or_intror (or_introl He))).
Defined.

Lemma unparseable_rows_dropped_witness :
  "window_start" ∈ columns messy ∧ "window_end" ∈ columns messy
  ∧ flag_name is_observed ∈ columns messy
  ∧ length (filter unparseable (parse iso8601.to_datetime messy)) = 2%nat
  ∧ ∃ v,
      normalize iso8601.to_datetime argsort_merge messy is_observed = Rendered v
      ∧ total v
        = Z.of_nat (length (records messy))
          - Z.of_nat (length (filter unparseable (parse iso8601.to_datetime messy)))
      ∧ total v = Z.of_nat (length (frame v))
      ∧ index <$> (row <$> frame v)
        ≡ₚ p_index <$> filter (λ p, ¬ unparseable p)
                         (parse iso8601.to_datetime messy).
Proof.
  assert ("window_start" ∈ columns messy) as Hs by decided.
  assert ("window_end" ∈ columns messy) as He by decided.
  assert (flag_name is_observed ∈ columns messy) as Hf by decided.
  do 3 (split; [done|]). split; [evaluated|].
  exact (unparseable_rows_dropped iso8601.to_datetime argsort_merge
           messy is_observed Hs He Hf).
Defined.

Lemma offset_start_nonneg_witness :
  normalize iso8601.to_datetime argsort_merge scenario is_observed_strict
    = Rendered scenario_view
  ∧ (∀ b, b ∈ frame scenario_view →
       (0 <= x0 b)%Q
       ∧ ∃ t, t0 scenario_view = Some t ∧ t ≤ window_start (row b)
              ∧ x0 b = total_seconds (window_start (row b) - t))
  ∧ (∀ b bs, frame scenario_view = b :: bs → x0 b = 0%Q).
Proof.
  split; [exact scenario_rendered|].
  exact (offset_start_nonneg iso8601.to_datetime argsort_merge
           scenario is_observed_strict scenario_view scenario_rendered).
Defined.

Lemma nan_flag_observed_witness :
  astype_bool (get (capture "2026-01-20T10:00:00Z" "2026-01-20T10:00:05Z"
                            is_outside_observation CNaN)
                   (flag_name is_outside_observation)) = true
  ∧ ∃ v b,
      normalize iso8601.to_datetime argsort_merge unflagged
                is_outside_observation = Rendered v
      ∧ b ∈ frame v ∧ index (row b) = 0%nat
      ∧ raw (row b) = capture "2026-01-20T10:00:00Z" "2026-01-20T10:00:05Z"
                              is_outside_observation CNaN
      ∧ _observed b
        = negb (bool_decide (flag_name is_outside_observation
                             = "is_outside_observation")).
Proof.
  apply (nan_flag_observed iso8601.to_datetime argsort_merge unflagged
           is_outside_observation 0 _ 1768903200000000000 1768903205000000000);
    first [decided | evaluated].
Defined.

(** * Further properties of the frame *)

Lemma take_at_nil {A} (ix : list nat) : take_at ix ([] : list A) = [].
Proof. unfold take_at. by induction ix. Qed.

Lemma dropna_unparseable ps : Forall unparseable ps → dropna ps = [].
Proof.
  unfold dropna. induction 1 as [|p ps Hp _ IH]; [done|].
  cbn. by rewrite (proj2 (dropna_row_None p) Hp).
Qed.

(** X1: a table in which no row has both timestamps, an empty table
    included, is still rendered: the frame is empty, [t0] is [NaT] and the
    three counts are [0]. *)
Theorem nothing_parses_renders_empty to_datetime argsort df flag_col :
  "window_start" ∈ columns df → "window_end" ∈ columns df →
  flag_name flag_col ∈ columns df →
  Forall unparseable (parse to_datetime df) →
  normalize to_datetime argsort df flag_col
  = Rendered {| t0 := None; frame := []; total := 0;
                observed_n := 0; outside_n := 0 |}.
Proof.
  intros Hs He Hf Hall. rewrite normalize_Rendered by done.
  unfold transform, sort_values.
  by rewrite (dropna_unparseable _ Hall), take_at_nil.
Qed.

Lemma series_min_elem l t : series_min l = Some t → t ∈ l.
Proof.
  destruct l as [|y l]; [done|]. cbn. intros [= <-].
  induction l as [|x l IH]; cbn; [left|].
  destruct (Z.min_spec x (foldr Z.min y l)) as [[_ ->]|[_ ->]].
  - right. left.
  - apply elem_of_cons in IH as [->|IH]; [left|by do 2 right].
Qed.

(** X2: the epoch [t0] is [NaT] exactly when no row survives; otherwise it
    is the [window_start] of a surviving row, whose bar starts at [0]. *)
Theorem epoch_is_a_window_start to_datetime argsort df flag_col v :
  normalize to_datetime argsort df flag_col = Rendered v →
  (t0 v = None ↔ frame v = [])
  ∧ (∀ t, t0 v = Some t →
       ∃ b, b ∈ frame v ∧ window_start (row b) = t ∧ x0 b = 0%Q).
Proof.
  intros (-> & _)%normalize_Rendered_inv. unfold transform. cbn.
  destruct (series_min _) as [t|] eqn:Ht.
  - split.
    + split; [done|]. intros Hnil%fmap_nil_inv. by rewrite Hnil in Ht.
    + intros ? [= <-]. apply series_min_elem in Ht.
      apply list_elem_of_fmap in Ht as (r & -> & Hr).
      exists (timeline (window_start r) flag_col r).
      split; [by apply list_elem_of_fmap_2|]. split; [done|].
      cbn. by rewrite Z.sub_diag.
  - split; [done|]. by intros.
Qed.



Lemma parse_index to_datetime df :
  p_index <$> parse to_datetime df = seq 0 (length (records df)).
Proof.
  unfold parse. rewrite fmap_imap.
  rewrite (imap_ext _ (λ j _, j)) by done.
  rewrite (imap_seq_0 _ (λ j, j)). apply list_fmap_id.
Qed.

(** X4: every row of the frame is one record of the table, carried through
    unchanged together with the two timestamps parsed for it, and no record
    occurs twice. *)
Theorem frame_rows_are_input_rows to_datetime argsort `{!Argsort argsort}
    df flag_col v :
  normalize to_datetime argsort df flag_col = Rendered v →
  NoDup (index <$> (row <$> frame v))
  ∧ ∀ b, b ∈ frame v →
      records df !! index (row b) = Some (raw (row b))
      ∧ mjoin (to_datetime (column df "window_start") !! index (row b))
        = Some (window_start (row b))
      ∧ mjoin (to_datetime (column df "window_end") !! index (row b))
        = Some (window_end (row b)).
Proof.
  intros Hv. split.
  - apply normalize_Rendered_inv in Hv as (-> & _).
    rewrite frame_rows, sort_values_Permutation, dropna_index by done.
    apply (sublist_NoDup _ (p_index <$> parse to_datetime df)).
    + rewrite parse_index. apply NoDup_seq.
    + apply fmap_sublist, sublist_filter.
  - intros b Hb.
    destruct (rendered_bar _ _ _ _ _ _ Hv Hb) as (_ & _ & _ & Hrow).
    by apply elem_of_dropna in Hrow.
Qed.

(** ** The bars of the single-track plot *)

Lemma obs_out_Permutation fr : obs fr ++ out fr ≡ₚ fr.
Proof.
  unfold obs, out. induction fr as [|r fr IH]; [done|].
  rewrite !filter_cons. destruct (_observed r); cbn [negb].
  - rewrite decide_True, decide_False by done. by apply perm_skip.
  - rewrite decide_False, decide_True by done.
    rewrite <-Permutation_middle. by apply perm_skip.
Qed.

Lemma filter_hatched (h h' : bool) (l : list Window) :
  filter (λ b, hatched b = h) (broken_barh h' <$> l)
  = if decide (h' = h) then broken_barh h' <$> l else [].
Proof.
  induction l as [|r l IH]; [by case_decide|].
  rewrite fmap_cons, filter_cons, IH. cbn. by case_decide.
Qed.

Lemma plot_Permutation fr :
  plot fr ≡ₚ (λ r, broken_barh (negb (_observed r)) r) <$> fr.
Proof.
  unfold plot, obs, out. induction fr as [|r fr IH]; [done|].
  rewrite !filter_cons, fmap_cons. destruct (_observed r); cbn [negb].
  - rewrite decide_True, decide_False by done.
    rewrite fmap_cons. by apply perm_skip.
  - rewrite decide_False, decide_True by done.
    rewrite fmap_cons, <-Permutation_middle. by apply perm_skip.
Qed.

(** X5: the plot draws each surviving row exactly once, plain if the row is
    observed and hatched if not; the sidebar's [Rows], [Observed] and
    [Outside] are the numbers of bars, of plain bars and of hatched bars. *)
Theorem plot_draws_every_row to_datetime argsort df flag_col v :
  normalize to_datetime argsort df flag_col = Rendered v →
  plot (frame v) ≡ₚ (λ r, broken_barh (negb (_observed r)) r) <$> frame v
  ∧ total v = Z.of_nat (length (plot (frame v)))
  ∧ observed_n v
    = Z.of_nat (length (filter (λ b, hatched b = false) (plot (frame v))))
  ∧ outside_n v
    = Z.of_nat (length (filter (λ b, hatched b = true) (plot (frame v))))
  ∧ observed_n v + outside_n v = total v.
Proof.
  intros (-> & _)%normalize_Rendered_inv.
  set (v := transform to_datetime argsort df flag_col).
  destruct (summary_of_frame to_datetime argsort df flag_col)
    as (Htotal & Hobs & Hsum). fold v in Htotal, Hobs, Hsum.
  assert (∀ fr, filter (λ b, hatched b = false) (plot fr)
                = broken_barh false <$> obs fr) as Hplain.
  { intros fr. unfold plot.
    by rewrite filter_app, !filter_hatched, app_nil_r. }
  assert (∀ fr, filter (λ b, hatched b = true) (plot fr)
                = broken_barh true <$> out fr) as Hhatched.
  { intros fr. unfold plot. by rewrite filter_app, !filter_hatched. }
  assert (length (plot (frame v)) = length (frame v)) as Hlen.
  { unfold plot. rewrite length_app, !length_fmap, <-length_app.
    by rewrite obs_out_Permutation. }
  split; [|split; [|split; [|split]]].
  - apply plot_Permutation.
  - by rewrite Hlen.
  - rewrite Hplain, length_fmap. done.
  - rewrite Hhatched, length_fmap.
    pose proof (obs_out_Permutation (frame v)) as Hperm.
    apply Permutation_length in Hperm. rewrite length_app in Hperm.
    unfold obs in Hperm. lia.
  - done.
Qed.

Lemma StronglySorted_sublist {A} (R : relation A) (l1 l2 : list A) :
  l1 `sublist_of` l2 → StronglySorted R l2 → StronglySorted R l1.
Proof.
  induction 1 as [|x l1 l2 Hsub IH|x l1 l2 Hsub IH]; [done|..].
  - intros [Hl2 Hx]%StronglySorted_inv. constructor; [by apply IH|].
    apply Forall_forall. intros y Hy. rewrite Forall_forall in Hx.
    apply Hx. by eapply elem_of_sublist.
  - intros [Hl2 _]%StronglySorted_inv. by apply IH.
Qed.

Global Instance Qle_transitive : Transitive Qle.
Proof. intros x y z. apply Qle_trans. Qed.

Lemma frame_x0_Sorted to_datetime argsort `{!Argsort argsort} df flag_col :
  Sorted Qle (x0 <$> frame (transform to_datetime argsort df flag_col)).
Proof.
  pose proof (sort_values_Sorted argsort (dropna (parse to_datetime df)))
    as Hsorted.
  unfold transform. cbn.
  destruct (series_min _) as [t|]; [|constructor].
  rewrite <-list_fmap_compose.
  rewrite (list_fmap_compose window_start (λ z, total_seconds (z - t))).
  revert Hsorted. apply Sorted_fmap. intros x y Hxy.
  apply (proj1 (total_seconds_mono _ _)). lia.
Qed.

Lemma frame_bar_nonneg to_datetime argsort df flag_col v b :
  normalize to_datetime argsort df flag_col = Rendered v → b ∈ frame v →
  (0 <= x0 b)%Q ∧ (0 <= w b)%Q.
Proof.
  intros Hv Hb.
  destruct (rendered_bar _ _ _ _ _ _ Hv Hb) as (t & Ht & Hbar & _).
  assert (t ≤ window_start (row b)) as Hle.
  { eapply series_min_le; [by eapply rendered_t0|].
    by apply list_elem_of_fmap_2, list_elem_of_fmap_2. }
  rewrite Hbar. cbn. split; [|apply clip_lower_ge].
  rewrite <-total_seconds_0. apply (proj1 (total_seconds_mono _ _)). lia.
Qed.

(** X6: no bar of the plot starts left of [0] or has a negative width; the
    plain bars are drawn first and the hatched bars after them, each group
    from left to right. *)
Theorem plot_bars_left_to_right to_datetime argsort `{!Argsort argsort}
    df flag_col v :
  normalize to_datetime argsort df flag_col = Rendered v →
  Forall (λ b, (0 <= xmin b)%Q ∧ (0 <= width b)%Q) (plot (frame v))
  ∧ ∃ plain hatch,
      plot (frame v) = plain ++ hatch
      ∧ Forall (λ b, hatched b = false) plain
      ∧ Forall (λ b, hatched b = true) hatch
      ∧ Sorted Qle (xmin <$> plain) ∧ Sorted Qle (xmin <$> hatch).
Proof.
  intros Hv. split.
  - rewrite plot_Permutation. apply Forall_fmap, Forall_forall.
    intros b Hb. cbn. by eapply frame_bar_nonneg.
  - exists (broken_barh false <$> obs (frame v)),
           (broken_barh true <$> out (frame v)).
    split; [done|]. split; [by apply Forall_fmap, Forall_true|].
    split; [by apply Forall_fmap, Forall_true|].
    apply normalize_Rendered_inv in Hv as (-> & _).
    pose proof (frame_x0_Sorted to_datetime argsort df flag_col) as Hsorted.
    apply Sorted_StronglySorted in Hsorted; [|apply _].
    rewrite <-!list_fmap_compose.
    split; apply StronglySorted_Sorted;
      (eapply StronglySorted_sublist; [|done]);
      apply (fmap_sublist x0), sublist_filter.
Qed.

(** ** The window-context track *)

Lemma elem_of_frame_columns df c :
  c ∉ ["_observed"; "x0"; "x1"; "w"] →
  c ∈ frame_columns df ↔ c ∈ columns df.
Proof.
  intros Hc. unfold frame_columns. rewrite elem_of_app, list_elem_of_filter.
  split; [|by left]. by intros [?|[_ ?]].
Qed.

Lemma decide_frame_columns {A} df c (x y : A) :
  c ∉ ["_observed"; "x0"; "x1"; "w"] →
  (if decide (c ∈ frame_columns df) then x else y)
  = (if decide (c ∈ columns df) then x else y).
Proof.
  intros Hc%(elem_of_frame_columns df).
  destruct (decide (c ∈ frame_columns df)) as [Hin|Hin],
    (decide (c ∈ columns df)) as [Hin'|Hin']; try done.
  - by apply Hc in Hin.
  - by apply Hc in Hin'.
Qed.

Lemma context_cols_columns df :
  context_cols df
  = filter (λ c, c ∈ columns df) ["process"; "title"; "app"; "window_name"].
Proof.
  unfold context_cols. rewrite !filter_cons, !filter_nil.
  rewrite !decide_frame_columns; [done|by apply (bool_decide_unpack _)..].
Qed.

(** A column that is present refutes "none of the four is present". *)
Ltac absent_contradicts c :=
  split; [|done]; intros Habsent; destruct (Habsent c); [set_solver|done].

(** X7: the context select box offers ["(none)"] and the columns among
    [process], [title], [app], [window_name] that the table has.  It starts
    on ["(none)"], and then no second track is drawn, exactly when the table
    has none of the four; otherwise it starts on the first of the four, in
    that order, that the table has. *)
Theorem context_default_choice float_str sort_counts df fr :
  context_default df ∈ context_options df
  ∧ ((∀ c, c ∈ ["process"; "title"; "app"; "window_name"] → c ∉ columns df)
     ↔ context_default df = "(none)")
  ∧ (context_default df = "(none)"
     ↔ second_track float_str sort_counts (context_default df) fr = None)
  ∧ (context_default df ≠ "(none)" →
     context_default df ∈ columns df
     ∧ ∃ before after,
         ["process"; "title"; "app"; "window_name"]
         = before ++ context_default df :: after
         ∧ Forall (λ c, c ∉ columns df) before).
Proof.
  unfold second_track, context_default, context_options.
  rewrite context_cols_columns, !filter_cons, !filter_nil.
  destruct (decide ("process" ∈ columns df)) as [Hp|Hp];
    [|destruct (decide ("title" ∈ columns df)) as [Ht|Ht];
      [|destruct (decide ("app" ∈ columns df)) as [Ha|Ha];
        [|destruct (decide ("window_name" ∈ columns df)) as [Hw|Hw]]]];
    cbn.
  - split; [set_solver|]. split; [by absent_contradicts "process"|].
    split; [done|]. intros _. split; [done|].
    by exists [], ["title"; "app"; "window_name"].
  - split; [set_solver|]. split; [by absent_contradicts "title"|].
    split; [done|]. intros _. split; [done|].
    exists ["process"], ["app"; "window_name"].
    split; [done|]. by repeat constructor.
  - split; [set_solver|]. split; [by absent_contradicts "app"|].
    split; [done|]. intros _. split; [done|].
    exists ["process"; "title"], ["window_name"].
    split; [done|]. by repeat constructor.
  - split; [set_solver|]. split; [by absent_contradicts "window_name"|].
    split; [done|]. intros _. split; [done|].
    exists ["process"; "title"; "app"], [].
    split; [done|]. by repeat constructor.
  - split; [set_solver|]. split; [|done]. split; [done|]. intros _ c Hc.
    repeat (apply elem_of_cons in Hc as [->|Hc]; [done|]).
    by apply elem_of_nil in Hc.
Qed.





(** ** Colours *)

Lemma elem_of_unique_from seen l u :
  u ∈ unique_from seen l ↔ u ∈ l ∧ u ∉ seen.
Proof.
  revert seen. induction l as [|x l IH]; intros seen; cbn.
  - split; [by intros ?%elem_of_nil|by intros [?%elem_of_nil _]].
  - case_decide as Hx.
    + rewrite IH, elem_of_cons. split; [by intros [??]; split; [right|]|].
      intros [[->|?] ?]; [done|by split].
    + rewrite !elem_of_cons, IH, not_elem_of_cons. split.
      * intros [->|(? & ? & ?)]; [by split; [left|]|by split; [right|]].
      * intros [[->|?] ?]; [by left|].
        destruct (decide (u = x)) as [->|?]; [by left|by right].
Qed.

Lemma NoDup_unique_from seen l : NoDup (unique_from seen l).
Proof.
  revert seen. induction l as [|x l IH]; intros seen; cbn; [constructor|].
  case_decide; [apply IH|]. constructor; [|apply IH].
  rewrite elem_of_unique_from, not_elem_of_cons. by intros (_ & ? & _).
Qed.

Lemma NoDup_unique l : NoDup (unique l).
Proof. apply NoDup_unique_from. Qed.

Lemma elem_of_unique l u : u ∈ unique l ↔ u ∈ l.
Proof.
  unfold unique. rewrite elem_of_unique_from. split; [by intros [??]|].
  intros ?. split; [done|]. by intros ?%elem_of_nil.
Qed.

Lemma unique_from_app seen l1 l2 :
  ∃ rest, unique_from seen (l1 ++ l2) = unique_from seen l1 ++ rest.
Proof.
  revert seen. induction l1 as [|x l1 IH]; intros seen; cbn; [by eexists|].
  case_decide; [apply IH|].
  destruct (IH (x :: seen)) as [rest ->]. by exists rest.
Qed.

Global Instance tab20_inj : Inj (=) (=) tab20.
Proof. by intros i j [= ->]. Qed.

Lemma colour_map_snoc uniq u :
  colour_map (uniq ++ [u])
  = <[u := tab20 (length uniq mod 20)]> (colour_map uniq).
Proof.
  unfold colour_map. rewrite imap_app, foldl_app. cbn.
  by rewrite Nat.add_0_r.
Qed.

Lemma colour_map_lookup_None uniq u :
  u ∉ uniq → colour_map uniq !! u = None.
Proof.
  induction uniq as [|x uniq IH] using rev_ind; [done|].
  rewrite not_elem_of_app, not_elem_of_cons. intros (Hu & Hx & _).
  rewrite colour_map_snoc, lookup_insert_ne by done. by apply IH.
Qed.

Lemma colour_map_lookup uniq k u :
  NoDup uniq → uniq !! k = Some u →
  colour_map uniq !! u = Some (tab20 (k mod 20)).
Proof.
  induction uniq as [|x uniq IH] using rev_ind; [done|].
  intros (Hnd & Hx & _)%NoDup_app Hk. rewrite colour_map_snoc.
  destruct (decide (k < length uniq)%nat) as [Hlt|Hge].
  - rewrite lookup_app_l in Hk by done.
    rewrite lookup_insert_ne; [by apply IH|].
    intros <-. eapply Hx; [by eapply list_elem_of_lookup_2|left].
  - rewrite lookup_app_r in Hk by lia.
    destruct (k - length uniq)%nat as [|n] eqn:Hn; [|done].
    injection Hk as ->. rewrite lookup_insert_eq.
    by replace k with (length uniq) by lia.
Qed.

Lemma face_unique labels u :
  u ∈ labels →
  ∃ k, unique labels !! k = Some u
       ∧ face (colour_map (unique labels)) u = tab20 (k mod 20).
Proof.
  intros Hu%elem_of_unique. apply list_elem_of_lookup in Hu as [k Hk].
  exists k. split; [done|]. unfold face.
  by rewrite (colour_map_lookup _ k u (NoDup_unique _) Hk).
Qed.

(** X9: the second track has one bar per surviving row, in the order of the
    frame and with the position and width of its bar in the first track.
    Its colour is entry [k mod 20] of the palette, [k] being the rank of the
    row's label among the distinct labels in order of first appearance: the
    fall-back colour ["grey"] is never used. *)
Theorem context_track_bars float_str context_col fr :
  Forall2
    (λ r cb,
       c_xmin cb = x0 r ∧ c_width cb = w r
       ∧ facecolors cb ≠ grey
       ∧ ∃ k, unique (ctx float_str context_col fr) !! k
              = Some (label float_str context_col r)
              ∧ facecolors cb = tab20 (k mod 20))
    fr (context_track float_str context_col fr).
Proof.
  unfold context_track. apply Forall2_fmap_r, Forall_Forall2_diag, Forall_forall.
  intros r Hr. cbn. split; [done|]. split; [done|].
  destruct (face_unique (ctx float_str context_col fr)
              (label float_str context_col r)) as (k & Hk & Hface).
  { by apply list_elem_of_fmap_2. }
  split; [by rewrite Hface|]. by exists k.
Qed.

(** X10: with at most 20 distinct labels, two rows have the same colour in
    the second track exactly when they have the same label. *)
Theorem colours_tell_labels_apart float_str context_col fr u u' :
  (length (unique (ctx float_str context_col fr)) ≤ 20)%nat →
  u ∈ ctx float_str context_col fr → u' ∈ ctx float_str context_col fr →
  face (colour_map (unique (ctx float_str context_col fr))) u
  = face (colour_map (unique (ctx float_str context_col fr))) u'
  ↔ u = u'.
Proof.
  intros Hlen Hu Hu'. split; [|by intros ->].
  destruct (face_unique _ _ Hu) as (k & Hk & ->).
  destruct (face_unique _ _ Hu') as (k' & Hk' & ->).
  intros Hmod%(inj tab20).
  pose proof (lookup_lt_Some _ _ _ Hk). pose proof (lookup_lt_Some _ _ _ Hk').
  rewrite !Nat.mod_small in Hmod by lia. subst k'. congruence.
Qed.

(** X11: the palette has 20 entries and is reused in a cycle: the labels of
    rank [k] and [k + 20] are different and get the same colour. *)
Theorem colours_repeat_after_20 float_str context_col fr k u u' :
  unique (ctx float_str context_col fr) !! k = Some u →
  unique (ctx float_str context_col fr) !! (k + 20)%nat = Some u' →
  u ≠ u'
  ∧ face (colour_map (unique (ctx float_str context_col fr))) u
    = face (colour_map (unique (ctx float_str context_col fr))) u'.
Proof.
  intros Hk Hk'.
  pose proof (NoDup_unique (ctx float_str context_col fr)) as Hnd.
  split.
  - intros <-. pose proof (NoDup_lookup _ _ _ _ Hnd Hk Hk'). lia.
  - unfold face.
    rewrite (colour_map_lookup _ _ _ Hnd Hk), (colour_map_lookup _ _ _ Hnd Hk').
    change (tab20 (k mod 20) = tab20 ((k + 20) mod 20)). f_equal.
    replace (k + 20)%nat with (k + 1 * 20)%nat by lia.
    by rewrite Nat.Div0.mod_add.
Qed.

(** X12: rows that follow do not change a colour: the bars of the second
    track for the rows [fr1] are the same whether or not further rows [fr2]
    come after them. *)
Theorem colours_keep_with_more_rows float_str context_col fr1 fr2 :
  take (length fr1) (context_track float_str context_col (fr1 ++ fr2))
  = context_track float_str context_col fr1.
Proof.
  unfold context_track. rewrite fmap_app, take_app_length'
    by (by rewrite length_fmap).
  apply list_fmap_ext. intros i r Hr. f_equal.
  destruct (face_unique (ctx float_str context_col fr1)
              (label float_str context_col r)) as (k & Hk & ->).
  { eapply list_elem_of_fmap_2, list_elem_of_lookup_2, Hr. }
  unfold ctx, unique. rewrite fmap_app.
  destruct (unique_from_app [] (label float_str context_col <$> fr1)
              (label float_str context_col <$> fr2)) as [rest Hrest].
  unfold face. rewrite (colour_map_lookup _ k); [done|apply NoDup_unique_from|].
  rewrite Hrest. by apply lookup_app_l_Some.
Qed.

(** ** The legend *)

Global Instance count_ge_trans : Transitive count_ge.
Proof. intros a b c. unfold count_ge. lia. Qed.

Global Instance count_ge_total : Total count_ge.
Proof. intros a b. unfold count_ge. lia. Qed.

Global Instance sort_counts_merge_spec : CountsOrder sort_counts_merge.
Proof.
  split; intros l; unfold sort_counts_merge.
  - apply merge_sort_Permutation.
  - apply Sorted_merge_sort, _.
Qed.

Lemma segments_count_pos labels u :
  u ∈ labels → (1 ≤ segments_count labels u)%nat.
Proof.
  intros Hu. unfold segments_count.
  assert (u ∈ filter (λ u', u' = u) labels) as Hin
    by (by apply list_elem_of_filter).
  destruct (filter _ labels); [by apply elem_of_nil in Hin|cbn; lia].
Qed.

Lemma sum_list_fmap {A} (f : A → nat) (l : list A) :
  sum_list (f <$> l) = sum_list_with f l.
Proof. induction l as [|x l IH]; [done|]. cbn. by rewrite <-IH. Qed.

Lemma sum_indicator_0 (us : list string) x :
  x ∉ us →
  sum_list_with (λ u, if decide (x = u) then 1 else 0)%nat us = 0%nat.
Proof.
  induction us as [|u us IH]; [done|].
  rewrite not_elem_of_cons. intros [Hne Hx]. cbn.
  by rewrite decide_False, IH.
Qed.

Lemma sum_indicator (us : list string) x :
  NoDup us → x ∈ us →
  sum_list_with (λ u, if decide (x = u) then 1 else 0)%nat us = 1%nat.
Proof.
  induction us as [|u us IH]; [by intros _ ?%elem_of_nil|].
  intros Hnd Hx. pose proof (NoDup_cons_1_1 _ _ Hnd) as Hu.
  pose proof (NoDup_cons_1_2 _ _ Hnd) as Hus. cbn.
  apply elem_of_cons in Hx as [->|Hx].
  - rewrite decide_True by done.
    by rewrite sum_indicator_0.
  - rewrite decide_False by (by intros ->). by rewrite IH.
Qed.

Lemma sum_segments_count labels (us : list string) :
  NoDup us → (∀ u, u ∈ labels → u ∈ us) →
  sum_list_with (segments_count labels) us = length labels.
Proof.
  intros Hnd. induction labels as [|x labels IH]; intros Hsub.
  - unfold segments_count. cbn. induction us; cbn; [done|].
    apply IHus. by eapply NoDup_cons_1_2. by intros ? ?%elem_of_nil.
  - assert (sum_list_with (segments_count (x :: labels)) us
            = (sum_list_with (λ u, if decide (x = u) then 1 else 0) us
               + sum_list_with (segments_count labels) us)%nat) as ->.
    { clear. induction us as [|u us IHus]; [done|].
      cbn [sum_list_with]. rewrite IHus.
      unfold segments_count at 1 3. rewrite filter_cons.
      destruct (decide (x = u)); cbn; lia. }
    rewrite (sum_indicator us x Hnd) by (apply Hsub; left).
    rewrite IH by (intros u Hu; apply Hsub; by right). done.
Qed.

Section legend.
Context (float_str : Q → string).
Context (sort_counts : list (string * nat) → list (string * nat)).
Context `{!CountsOrder sort_counts}.
Implicit Types (fr : list Window) (labels : list string).

Lemma elem_of_value_counts labels u n :
  (u, n) ∈ value_counts sort_counts labels
  ↔ u ∈ labels ∧ n = segments_count labels u.
Proof.
  unfold value_counts. rewrite sort_counts_rows, list_elem_of_fmap.
  setoid_rewrite elem_of_unique. split.
  - by intros (u' & [= -> ->] & Hu).
  - intros [Hu ->]. by exists u.
Qed.

Lemma value_counts_labels labels :
  (value_counts sort_counts labels).*1 ≡ₚ unique labels.
Proof.
  unfold value_counts. rewrite sort_counts_rows, <-list_fmap_compose.
  by rewrite list_fmap_id.
Qed.

(** X13: the legend has at most 30 rows and no label twice.  Each row gives
    a label that occurs and the number of segments that carry it, and the
    numbers never increase down the table.  A label is left out only when
    the table is full, and then it has no more segments than any label
    shown. *)
Theorem legend_rows context_col fr :
  let labels := ctx float_str context_col fr in
  let table := legend float_str sort_counts context_col fr in
  (length table ≤ 30)%nat
  ∧ NoDup table.*1
  ∧ Sorted count_ge table
  ∧ (∀ u n, (u, n) ∈ table →
       u ∈ labels ∧ n = segments_count labels u ∧ (1 ≤ n)%nat)
  ∧ (∀ u, u ∈ labels → u ∉ table.*1 →
       length table = 30%nat
       ∧ Forall (λ shown, (segments_count labels u ≤ shown.2)%nat) table).
Proof.
  intros labels table. unfold table, legend. fold labels.
  set (vc := value_counts sort_counts labels).
  assert (StronglySorted count_ge vc) as Hsorted.
  { apply Sorted_StronglySorted; [apply _|].
    unfold vc, value_counts. apply sort_counts_descending. }
  split; [rewrite length_take; lia|]. split; [|split; [|split]].
  - apply (sublist_NoDup _ vc.*1).
    + unfold vc. rewrite value_counts_labels. apply NoDup_unique.
    + apply fmap_sublist, sublist_take.
  - apply StronglySorted_Sorted.
    eapply StronglySorted_sublist; [apply sublist_take|done].
  - intros u n Hin. assert ((u, n) ∈ vc) as Hvc.
    { eapply elem_of_sublist; [done|apply sublist_take]. }
    apply elem_of_value_counts in Hvc as [Hu ->].
    split; [done|]. split; [done|]. by apply segments_count_pos.
  - intros u Hu Hout.
    assert ((u, segments_count labels u) ∈ vc) as Hvc
      by (by apply elem_of_value_counts).
    rewrite <-(take_drop 30 vc) in Hvc, Hsorted.
    apply elem_of_app in Hvc as [Hvc|Hvc].
    { destruct Hout. by apply (list_elem_of_fmap_2 fst) in Hvc. }
    split.
    + rewrite length_take. apply list_elem_of_lookup in Hvc as [i Hi].
      apply lookup_lt_Some in Hi. rewrite length_drop in Hi. lia.
    + apply Forall_forall. intros shown Hshown.
      apply (StronglySorted_app_1_elem_of _ _ _ _ _ Hsorted Hshown Hvc).
Qed.

(** X14: with at most 30 distinct labels the legend leaves no label out, and
    its counts add up to the number of surviving rows. *)
Theorem legend_accounts_for_rows context_col fr :
  (length (unique (ctx float_str context_col fr)) ≤ 30)%nat →
  (∀ u, u ∈ ctx float_str context_col fr →
        u ∈ (legend float_str sort_counts context_col fr).*1)
  ∧ sum_list (legend float_str sort_counts context_col fr).*2 = length fr.
Proof.
  intros Hlen. unfold legend.
  set (labels := ctx float_str context_col fr).
  rewrite take_ge.
  - split.
    + intros u Hu. rewrite value_counts_labels. by apply elem_of_unique.
    + unfold value_counts. rewrite sort_counts_rows, <-list_fmap_compose.
      change (sum_list (snd ∘ _ <$> unique labels))
        with (sum_list (segments_count labels <$> unique labels)).
      rewrite sum_list_fmap.
      rewrite sum_segments_count;
        [by unfold labels, ctx; rewrite length_fmap|apply NoDup_unique|].
      intros u. by rewrite elem_of_unique.
  - unfold value_counts. by rewrite sort_counts_rows, length_fmap.
Qed.
End legend.

(** ** The data preview *)

Lemma flag_name_not_derived flag_col :
  flag_name flag_col ∉ ["_observed"; "x0"; "x1"; "w"].
Proof. destruct flag_col; by apply (bool_decide_unpack _). Qed.

Lemma show_cols_columns df flag_col :
  show_cols df flag_col
  = filter (λ c, c ∈ columns df) (preview_candidates flag_col).
Proof.
  unfold show_cols, preview_candidates. rewrite !filter_cons, !filter_nil.
  rewrite !decide_frame_columns;
    [done|first [apply flag_name_not_derived|by apply (bool_decide_unpack _)]..].
Qed.

(** X15: whenever the script renders, the preview shows [window_start],
    [window_end] and the chosen flag column first, and after them those of
    the five counter columns that the table has, in their fixed order; it
    shows no column that the table lacks. *)
Theorem show_cols_shape to_datetime argsort df flag_col v :
  normalize to_datetime argsort df flag_col = Rendered v →
  show_cols df flag_col
  = ["window_start"; "window_end"; flag_name flag_col]
    ++ filter (λ c, c ∈ columns df)
         ["event_total"; "click_count"; "key_count"; "scroll_count";
          "move_count"]
  ∧ ∀ c, c ∈ show_cols df flag_col → c ∈ columns df.
Proof.
  intros (_ & Hs & He & Hf)%normalize_Rendered_inv.
  rewrite show_cols_columns. split.
  - unfold preview_candidates.
    rewrite (filter_cons _ "window_start"), decide_True by done.
    rewrite (filter_cons _ "window_end"), decide_True by done.
    by rewrite (filter_cons _ (flag_name flag_col)), decide_True by done.
  - intros c. rewrite list_elem_of_filter. by intros [? _].
Qed.

Lemma StronglySorted_lookup {A} (R : relation A) (l : list A) i j a b :
  StronglySorted R l → (i < j)%nat → l !! i = Some a → l !! j = Some b →
  R a b.
Proof.
  intros Hsorted Hij Ha Hb.
  rewrite <-(take_drop j l) in Hsorted.
  apply (StronglySorted_app_1_elem_of _ _ _ _ _ Hsorted).
  - apply elem_of_take. by exists i.
  - apply list_elem_of_lookup. exists 0%nat.
    by rewrite lookup_drop, Nat.add_0_r.
Qed.

(** X16: the preview holds the first 200 rows of the frame, all of them if
    there are fewer.  Each of its rows starts with the parsed [window_start]
    and [window_end] and the raw flag cell of the row, and a row that is not
    shown starts no earlier than any row that is. *)
Theorem preview_first_200 to_datetime argsort `{!Argsort argsort}
    df flag_col v :
  normalize to_datetime argsort df flag_col = Rendered v →
  length (preview df flag_col (frame v)) = (200 `min` length (frame v))%nat
  ∧ (∀ i cells, preview df flag_col (frame v) !! i = Some cells →
       ∃ b, frame v !! i = Some b
            ∧ length cells = length (show_cols df flag_col)
            ∧ take 3 cells
              = [ PTimestamp (window_start (row b));
                  PTimestamp (window_end (row b));
                  PCell (get (raw (row b)) (flag_name flag_col)) ])
  ∧ (∀ i j a b, (i < 200 ≤ j)%nat →
       frame v !! i = Some a → frame v !! j = Some b →
       window_start (row a) ≤ window_start (row b)).
Proof.
  intros Hv. pose proof (show_cols_shape _ _ _ _ _ Hv) as [Hcols _].
  split; [|split].
  - unfold preview. by rewrite length_fmap, length_take.
  - intros i cells. unfold preview. rewrite list_lookup_fmap.
    destruct (take 200 (frame v) !! i) as [b|] eqn:Hb; [|done].
    intros [= <-]. apply lookup_take_Some in Hb as [Hb _].
    exists b. split; [done|]. split; [by rewrite length_fmap|].
    rewrite Hcols. cbn. unfold preview_cell. by destruct flag_col.
  - intros i j a b [Hi Hj] Ha Hb.
    apply normalize_Rendered_inv in Hv as (-> & _).
    pose proof (sort_values_Sorted argsort (dropna (parse to_datetime df)))
      as Hsorted.
    rewrite <-(frame_rows _ _ _ flag_col) in Hsorted.
    apply Sorted_StronglySorted in Hsorted; [|apply _].
    eapply (StronglySorted_lookup Z.le _ i j); [exact Hsorted|lia|..];
      by rewrite !list_lookup_fmap, ?Ha, ?Hb.
Qed.


(** ** These properties at concrete tables *)


Lemma desktop_rendered :
  normalize iso8601.to_datetime argsort_merge desktop is_observed
  = Rendered desktop_view.
Proof. evaluated. Defined.

Lemma nothing_parses_renders_empty_witness :
  Forall unparseable (parse iso8601.to_datetime unreadable)
  ∧ normalize iso8601.to_datetime argsort_merge unreadable is_observed
    = Rendered {| t0 := None; frame := []; total := 0;
                  observed_n := 0; outside_n := 0 |}.
Proof.
  assert ("window_start" ∈ columns unreadable) as Hs by decided.
  assert ("window_end" ∈ columns unreadable) as He by decided.
  assert (flag_name is_observed ∈ columns unreadable) as Hf by decided.
  assert (Forall unparseable (parse iso8601.to_datetime unreadable)) as Hall
    by decided.
  split; [done|].
  exact (nothing_parses_renders_empty iso8601.to_datetime argsort_merge
           unreadable is_observed Hs He Hf Hall).
Defined.

Lemma epoch_is_a_window_start_witness :
  normalize iso8601.to_datetime argsort_merge scenario is_observed_strict
    = Rendered scenario_view
  ∧ (t0 scenario_view = None ↔ frame scenario_view = [])
  ∧ (∀ t, t0 scenario_view = Some t →
       ∃ b, b ∈ frame scenario_view ∧ window_start (row b) = t
            ∧ x0 b = 0%Q).
Proof.
  split; [exact scenario_rendered|].
  exact (epoch_is_a_window_start _ _ _ _ _ scenario_rendered).
Defined.


Lemma frame_rows_are_input_rows_witness :
  normalize iso8601.to_datetime argsort_merge desktop is_observed
    = Rendered desktop_view
  ∧ NoDup (index <$> (row <$> frame desktop_view))
  ∧ ∀ b, b ∈ frame desktop_view →
      records desktop !! index (row b) = Some (raw (row b))
      ∧ mjoin (iso8601.to_datetime (column desktop "window_start")
               !! index (row b))
        = Some (window_start (row b))
      ∧ mjoin (iso8601.to_datetime (column desktop "window_end")
               !! index (row b))
        = Some (window_end (row b)).
Proof.
  split; [exact desktop_rendered|].
  exact (frame_rows_are_input_rows iso8601.to_datetime argsort_merge
           desktop is_observed desktop_view desktop_rendered).
Defined.

Lemma plot_draws_every_row_witness :
  normalize iso8601.to_datetime argsort_merge desktop is_observed
    = Rendered desktop_view
  ∧ plot (frame desktop_view)
    ≡ₚ (λ r, broken_barh (negb (_observed r)) r) <$> frame desktop_view
  ∧ total desktop_view = Z.of_nat (length (plot (frame desktop_view)))
  ∧ observed_n desktop_view
    = Z.of_nat (length (filter (λ b, hatched b = false)
                               (plot (frame desktop_view))))
  ∧ outside_n desktop_view
    = Z.of_nat (length (filter (λ b, hatched b = true)
                               (plot (frame desktop_view))))
  ∧ observed_n desktop_view + outside_n desktop_view = total desktop_view.
Proof.
  split; [exact desktop_rendered|].
  exact (plot_draws_every_row _ _ _ _ _ desktop_rendered).
Defined.

Lemma plot_bars_left_to_right_witness :
  normalize iso8601.to_datetime argsort_merge desktop is_observed
    = Rendered desktop_view
  ∧ Forall (λ b, (0 <= xmin b)%Q ∧ (0 <= width b)%Q)
           (plot (frame desktop_view))
  ∧ ∃ plain hatch,
      plot (frame desktop_view) = plain ++ hatch
      ∧ Forall (λ b, hatched b = false) plain
      ∧ Forall (λ b, hatched b = true) hatch
      ∧ Sorted Qle (xmin <$> plain) ∧ Sorted Qle (xmin <$> hatch).
Proof.
  split; [exact desktop_rendered|].
  exact (plot_bars_left_to_right iso8601.to_datetime argsort_merge
           desktop is_observed desktop_view desktop_rendered).
Defined.

Lemma colours_tell_labels_apart_witness :
  (length (unique (ctx no_float_str "app" (frame desktop_view))) ≤ 20)%nat
  ∧ "editor" ∈ ctx no_float_str "app" (frame desktop_view)
  ∧ "unknown" ∈ ctx no_float_str "app" (frame desktop_view)
  ∧ (face (colour_map (unique (ctx no_float_str "app" (frame desktop_view))))
          "editor"
     = face (colour_map (unique (ctx no_float_str "app" (frame desktop_view))))
            "unknown"
     ↔ "editor" = "unknown").
Proof.
  assert (length (unique (ctx no_float_str "app" (frame desktop_view))) ≤ 20)%nat
    as Hlen by decided.
  assert ("editor" ∈ ctx no_float_str "app" (frame desktop_view)) as Hu
    by decided.
  assert ("unknown" ∈ ctx no_float_str "app" (frame desktop_view)) as Hu'
    by decided.
  do 3 (split; [done|]).
  exact (colours_tell_labels_apart no_float_str "app" (frame desktop_view)
           "editor" "unknown" Hlen Hu Hu').
Defined.

Lemma colours_repeat_after_20_witness :
  unique (ctx no_float_str "process" crowd) !! 0%nat = Some "0"
  ∧ unique (ctx no_float_str "process" crowd) !! 20%nat = Some "20"
  ∧ "0" ≠ "20"
  ∧ face (colour_map (unique (ctx no_float_str "process" crowd))) "0"
    = face (colour_map (unique (ctx no_float_str "process" crowd))) "20".
Proof.
  assert (unique (ctx no_float_str "process" crowd) !! 0%nat = Some "0")
    as Hk by evaluated.
  assert (unique (ctx no_float_str "process" crowd) !! (0 + 20)%nat = Some "20")
    as Hk' by evaluated.
  split; [done|]. split; [done|].
  exact (colours_repeat_after_20 no_float_str "process" crowd 0 "0" "20" Hk Hk').
Defined.

Lemma legend_rows_witness :
  let labels := ctx no_float_str "app" (frame desktop_view) in
  let table := legend no_float_str sort_counts_merge "app" (frame desktop_view) in
  (length table ≤ 30)%nat
  ∧ NoDup table.*1
  ∧ Sorted count_ge table
  ∧ (∀ u n, (u, n) ∈ table →
       u ∈ labels ∧ n = segments_count labels u ∧ (1 ≤ n)%nat)
  ∧ (∀ u, u ∈ labels → u ∉ table.*1 →
       length table = 30%nat
       ∧ Forall (λ shown, (segments_count labels u ≤ shown.2)%nat) table).
Proof.
  exact (legend_rows no_float_str sort_counts_merge "app" (frame desktop_view)).
Defined.

Lemma legend_accounts_for_rows_witness :
  (length (unique (ctx no_float_str "app" (frame desktop_view))) ≤ 30)%nat
  ∧ (∀ u, u ∈ ctx no_float_str "app" (frame desktop_view) →
       u ∈ (legend no_float_str sort_counts_merge "app"
                   (frame desktop_view)).*1)
  ∧ sum_list (legend no_float_str sort_counts_merge "app"
                     (frame desktop_view)).*2
    = length (frame desktop_view).
Proof.
  assert (length (unique (ctx no_float_str "app" (frame desktop_view))) ≤ 30)%nat
    as Hlen by decided.
  split; [done|].
  exact (legend_accounts_for_rows no_float_str sort_counts_merge "app"
           (frame desktop_view) Hlen).
Defined.

Lemma show_cols_shape_witness :
  normalize iso8601.to_datetime argsort_merge desktop is_observed
    = Rendered desktop_view
  ∧ show_cols desktop is_observed
    = ["window_start"; "window_end"; flag_name is_observed]
      ++ filter (λ c, c ∈ columns desktop)
           ["event_total"; "click_count"; "key_count"; "scroll_count";
            "move_count"]
  ∧ ∀ c, c ∈ show_cols desktop is_observed → c ∈ columns desktop.
Proof.
  split; [exact desktop_rendered|].
  exact (show_cols_shape _ _ _ _ _ desktop_rendered).
Defined.

Lemma preview_first_200_witness :
  normalize iso8601.to_datetime argsort_merge desktop is_observed
    = Rendered desktop_view
  ∧ length (preview desktop is_observed (frame desktop_view))
    = (200 `min` length (frame desktop_view))%nat
  ∧ (∀ i cells,
       preview desktop is_observed (frame desktop_view) !! i = Some cells →
       ∃ b, frame desktop_view !! i = Some b
            ∧ length cells = length (show_cols desktop is_observed)
            ∧ take 3 cells
              = [ PTimestamp (window_start (row b));
                  PTimestamp (window_end (row b));
                  PCell (get (raw (row b)) (flag_name is_observed)) ])
  ∧ (∀ i j a b, (i < 200 ≤ j)%nat →
       frame desktop_view !! i = Some a → frame desktop_view !! j = Some b →
       window_start (row a) ≤ window_start (row b)).
Proof.
  split; [exact desktop_rendered|].
  exact (preview_first_200 iso8601.to_datetime argsort_merge
           desktop is_observed desktop_view desktop_rendered).
Defined.

(** X18: the flag select box does not look at the table.  On a table that
    has both timestamp columns but no [is_observed_strict] column the script
    as started stops with the flag error, also when the table has one of the
    other two flag columns; it renders once that column is chosen. *)
Theorem flag_default_not_fitted to_datetime argsort df other :
  "window_start" ∈ columns df → "window_end" ∈ columns df →
  "is_observed_strict" ∉ columns df →
  flag_name other ∈ columns df →
  normalize to_datetime argsort df flag_default
  = Stopped (MissingFlag "is_observed_strict")
  ∧ normalize to_datetime argsort df other
    = Rendered (transform to_datetime argsort df other).
Proof.
  intros Hs He Hstrict Hother. split; [|by apply normalize_Rendered].
  unfold normalize, validate_required, validate_flag.
  rewrite (proj2 (missing_nil df)) by done. cbn.
  by rewrite decide_False.
Qed.

Lemma flag_default_not_fitted_witness :
  ("is_observed_strict" ∉ columns messy)
  ∧ normalize iso8601.to_datetime argsort_merge messy flag_default
    = Stopped (MissingFlag "is_observed_strict")
  ∧ normalize iso8601.to_datetime argsort_merge messy is_observed
    = Rendered (transform iso8601.to_datetime argsort_merge messy is_observed).
Proof.
  assert ("window_start" ∈ columns messy) as Hs by decided.
  assert ("window_end" ∈ columns messy) as He by decided.
  assert ("is_observed_strict" ∉ columns messy) as Hstrict by decided.
  assert (flag_name is_observed ∈ columns messy) as Hother by decided.
  split; [done|].
  exact (flag_default_not_fitted iso8601.to_datetime argsort_merge messy
           is_observed Hs He Hstrict Hother).
Defined.

Lemma context_default_choice_witness :
  context_default desktop ≠ "(none)"
  ∧ context_default desktop = "title"
  ∧ context_default desktop ∈ columns desktop
  ∧ ∃ before after,
      ["process"; "title"; "app"; "window_name"]
      = before ++ context_default desktop :: after
      ∧ Forall (λ c, c ∉ columns desktop) before.
Proof.
  assert (context_default desktop ≠ "(none)") as Hne by decided.
  split; [done|]. split; [evaluated|].
  exact (proj2 (proj2 (proj2
           (context_default_choice no_float_str sort_counts_merge desktop
              (frame desktop_view)))) Hne).
Defined.

